(** * rtfraptor: the instrumentation and correlation engine

    A shallow embedding of [src/rtfraptor/engine.py]: the event handler
    [CustomEventHandler] with its three API hooks, the hook registry
    ([_apply_hooks], [load_dll]) and the session loop [office_debugger],
    followed by the properties the specification states about them.

    Python objects become records, the handler's dictionaries become
    [gmap]s, and every effect the code has (log records, files written,
    breakpoints installed, calls made on the debugger) is a field of an
    explicit [state] threaded through a small state-and-exception monad.
    What the code takes from elsewhere is a parameter: the target's memory
    and the loaded module are records of functions, [bytes_to_clsid], the
    table [KNOWN_CLSIDS] and the debugger's treatment of a callback's
    exception are section variables.  [hashlib.sha256] is modelled in full.

    The definitions come first: the model of the code, a simulated target
    to run it on, and the notions the properties are stated with.  The
    properties follow, grouped by component. *)

From Stdlib Require Import ZArith List String Ascii Lia Bool.
From Stdlib Require Import Strings.Byte.
From stdpp Require Import base option gmap strings list fin_maps.
Import ListNotations.
Local Open Scope string_scope.
Local Open Scope list_scope.
Local Open Scope Z_scope.

(** ** Bytes and hexadecimal text *)

Definition Z_of_byte (b : byte) : Z := Z.of_N (Byte.to_N b).

Definition byte_of_Z (z : Z) : byte :=
  match Byte.of_N (Z.to_N (z mod 256)) with
  | Some b => b
  | None => x00
  end.

Definition hex_digit (n : Z) : ascii :=
  match String.get (Z.to_nat n) "0123456789abcdef" with
  | Some c => c
  | None => "?"%char
  end.

(** Two lowercase hexadecimal digits per byte, as [hexdigest] prints them. *)
Fixpoint hex_of_bytes (bs : list Z) : string :=
  match bs with
  | [] => EmptyString
  | b :: r => String (hex_digit (b / 16)) (String (hex_digit (b mod 16)) (hex_of_bytes r))
  end.

Definition nibble_of_ascii (c : ascii) : option Z :=
  let n := Z.of_nat (nat_of_ascii c) in
  if (48 <=? n) && (n <=? 57) then Some (n - 48)
  else if (97 <=? n) && (n <=? 102) then Some (n - 87)
  else None.

(** The 32-bit words written in a text of hexadecimal digits; any other
    character separates words. *)
Fixpoint hex_words_from (acc : option Z) (s : string) : list Z :=
  match s with
  | EmptyString => match acc with Some w => [w] | None => [] end
  | String c r =>
      match nibble_of_ascii c with
      | Some d => hex_words_from (Some (16 * default 0 acc + d)) r
      | None =>
          match acc with
          | Some w => w :: hex_words_from None r
          | None => hex_words_from None r
          end
      end
  end.

Definition hex_words : string -> list Z := hex_words_from None.

(** ** SHA-256 (FIPS 180-4), which [hashlib.sha256] computes *)

Module SHA256.

Definition w32 (x : Z) : Z := x mod 2 ^ 32.
Definition add32 (x y : Z) : Z := w32 (x + y).
Definition rotr (n x : Z) : Z := Z.lor (Z.shiftr x n) (w32 (Z.shiftl x (32 - n))).
Definition shr (n x : Z) : Z := Z.shiftr x n.
Definition not32 (x : Z) : Z := w32 (Z.lnot x).

Definition Ch (x y z : Z) : Z := Z.lxor (Z.land x y) (Z.land (not32 x) z).
Definition Maj (x y z : Z) : Z :=
  Z.lxor (Z.lxor (Z.land x y) (Z.land x z)) (Z.land y z).
Definition Sigma0 (x : Z) : Z := Z.lxor (Z.lxor (rotr 2 x) (rotr 13 x)) (rotr 22 x).
Definition Sigma1 (x : Z) : Z := Z.lxor (Z.lxor (rotr 6 x) (rotr 11 x)) (rotr 25 x).
Definition sigma0 (x : Z) : Z := Z.lxor (Z.lxor (rotr 7 x) (rotr 18 x)) (shr 3 x).
Definition sigma1 (x : Z) : Z := Z.lxor (Z.lxor (rotr 17 x) (rotr 19 x)) (shr 10 x).

(** The sixty-four round constants. *)
Definition K : list Z := Eval vm_compute in hex_words
  "428a2f98 71374491 b5c0fbcf e9b5dba5 3956c25b 59f111f1 923f82a4 ab1c5ed5
   d807aa98 12835b01 243185be 550c7dc3 72be5d74 80deb1fe 9bdc06a7 c19bf174
   e49b69c1 efbe4786 0fc19dc6 240ca1cc 2de92c6f 4a7484aa 5cb0a9dc 76f988da
   983e5152 a831c66d b00327c8 bf597fc7 c6e00bf3 d5a79147 06ca6351 14292967
   27b70a85 2e1b2138 4d2c6dfc 53380d13 650a7354 766a0abb 81c2c92e 92722c85
   a2bfe8a1 a81a664b c24b8b70 c76c51a3 d192e819 d6990624 f40e3585 106aa070
   19a4c116 1e376c08 2748774c 34b0bcb5 391c0cb3 4ed8aa4a 5b9cca4f 682e6ff3
   748f82ee 78a5636f 84c87814 8cc70208 90befffa a4506ceb bef9a3f7 c67178f2".

(** The initial hash value. *)
Definition H_init : list Z := Eval vm_compute in hex_words
  "6a09e667 bb67ae85 3c6ef372 a54ff53a 510e527f 9b05688c 1f83d9ab 5be0cd19".

(** Big-endian bytes of a word, most significant first. *)
Fixpoint be_bytes (n : nat) (x : Z) : list Z :=
  match n with
  | O => []
  | S k => (x / 256 ^ Z.of_nat k) mod 256 :: be_bytes k x
  end.

Fixpoint be_words (bs : list Z) : list Z :=
  match bs with
  | a :: b :: c :: d :: r => (((a * 256 + b) * 256 + c) * 256 + d) :: be_words r
  | _ => []
  end.

(** Padding: the bit 1, zero bits up to 448 modulo 512, then the message
    length in bits as a 64-bit big-endian number. *)
Definition pad (msg : list Z) : list Z :=
  let len := Z.of_nat (length msg) in
  let zeros := Z.to_nat ((55 - len) mod 64) in
  msg ++ 128 :: repeat 0 zeros ++ be_bytes 8 (8 * len).

(** One step of the message schedule over a window of the last sixteen
    words: the window slides by one and the new word is appended. *)
Definition schedule_step (win : list Z) : list Z :=
  let at_ i := nth i win 0 in
  tl win ++ [add32 (add32 (add32 (sigma1 (at_ 14%nat)) (at_ 9%nat))
                           (sigma0 (at_ 1%nat))) (at_ 0%nat)].

Fixpoint schedule (n : nat) (win : list Z) : list Z :=
  match n with
  | O => []
  | S k => nth 0 win 0 :: schedule k (schedule_step win)
  end.

Definition round (v : list Z) (kw : Z * Z) : list Z :=
  match v with
  | [a; b; c; d; e; f; g; h] =>
      let t1 := add32 (add32 (add32 (add32 h (Sigma1 e)) (Ch e f g)) (fst kw)) (snd kw) in
      let t2 := add32 (Sigma0 a) (Maj a b c) in
      [add32 t1 t2; a; b; c; add32 d t1; e; f; g]
  | _ => v
  end.

Fixpoint zip (xs ys : list Z) : list (Z * Z) :=
  match xs, ys with
  | x :: xs', y :: ys' => (x, y) :: zip xs' ys'
  | _, _ => []
  end.

Fixpoint add_words (xs ys : list Z) : list Z :=
  match xs, ys with
  | x :: xs', y :: ys' => add32 x y :: add_words xs' ys'
  | _, _ => []
  end.

Definition compress (h : list Z) (block : list Z) : list Z :=
  add_words h (fold_left round (zip K (schedule 64 block)) h).

Fixpoint blocks (fuel : nat) (ws : list Z) (h : list Z) : list Z :=
  match fuel, ws with
  | S k, _ :: _ => blocks k (skipn 16 ws) (compress h (firstn 16 ws))
  | _, _ => h
  end.

Definition digest (msg : list Z) : list Z :=
  let ws := be_words (pad msg) in
  flat_map (be_bytes 4) (blocks (length ws) ws H_init).

Definition hexdigest (data : list byte) : string :=
  hex_of_bytes (digest (map Z_of_byte data)).

End SHA256.

Definition bytes_of_string (s : string) : list byte :=
  map (fun c => byte_of_Z (Z.of_nat (nat_of_ascii c))) (list_ascii_of_string s).

(** ** Python values the engine handles *)

(** The exceptions that can arise in the engine: [WindowsError] from the
    debugger library (with its [winerror] code), [KeyError] from a
    dictionary subscript, [AttributeError] from [getattr], [TypeError] from
    calling a callback with the wrong number of arguments. *)
Inductive exn :=
| WindowsError (winerror : Z)
| KeyError (key : Z)
| AttributeError (name : string)
| TypeError.

Inductive result (A : Type) :=
| Ok (a : A)
| Raise (e : exn).
Arguments Ok {A} a.
Arguments Raise {A} e.

(** Truth value of a pointer-sized argument or of [None]: [None] and [0]
    are false, every other integer is true. *)
Definition truthy (v : option Z) : bool :=
  match v with
  | None => false
  | Some z => negb (z =? 0)
  end.

(** *** Logging *)

Inductive log_level := DEBUG | INFO | WARNING | ERROR.

#[global] Instance log_level_eq_dec : EqDecision log_level.
Proof. solve_decision. Defined.

(** The numeric value the [logging] module gives each level. *)
Definition levelno (l : log_level) : Z :=
  match l with
  | DEBUG => 10
  | INFO => 20
  | WARNING => 30
  | ERROR => 40
  end.

Inductive log_arg :=
| AStr (s : string)
| AInt (n : Z).

(** One call on the logger: the level, the format string and the arguments
    to be substituted into it. *)
Record log_record := {
  levelname : log_level;
  msg : string;
  args : list log_arg;
}.

(** *** Tracked objects *)

(** The dictionary [info] kept per object: the keys ['size'] and ['sha256']
    are set by the data-conversion hook, ['class_id'] and ['description']
    only later by the guid-conversion hook. *)
Record info := {
  info_size : Z;
  info_sha256 : string;
  info_class_id : option string;
  info_description : option string;
}.

Definition set_class_id (c : string) (i : info) : info :=
  {| info_size := info_size i; info_sha256 := info_sha256 i;
     info_class_id := Some c; info_description := info_description i |}.

Definition set_description (d : string) (i : info) : info :=
  {| info_size := info_size i; info_sha256 := info_sha256 i;
     info_class_id := info_class_id i; info_description := Some d |}.

(** The attributes of a [CustomEventHandler] instance. *)
Record CustomEventHandler := {
  _last_pstg : option Z;
  objects : gmap Z info;
}.

(** What [office_debugger] can hand back to its caller: [None], or a
    dictionary of tracked objects. *)
Inductive pyvalue :=
| PyNone
| PyObjects (o : gmap Z info).

(** *** The debugger library's objects *)

(** A halted target process, as far as the engine reads it. *)
Record process := {
  peek_pointer : Z -> result Z;
  peek_dword : Z -> result Z;
  read : Z -> Z -> result (list byte);
}.

(** A module loaded into the target. *)
Record module := {
  get_name : string;
  match_name : string -> bool;
  resolve : string -> option Z;
}.

(** The three hook methods of the handler. *)
Inductive method :=
| hook_load
| hook_data_conversion
| hook_guid_conversion.

(** A breakpoint set with [hook_function]: the callback and the number of
    pointer-sized arguments in its signature. *)
Record hook_entry := {
  hk_pid : Z;
  hk_address : Z;
  hk_callback : method;
  hk_arity : nat;
}.

Inductive mem_read :=
| PeekPointer (address : Z)
| PeekDword (address : Z)
| Read (address : Z) (nbytes : Z).

Inductive debug_call :=
| SetKillOnExit
| Execv (opts : list string)
| Wait (milliseconds : Z)
| Dispatch
| Cont
| Stop
| ExitDebug.

(** A debug event: a module was loaded, a hooked address was reached (with
    the return address and the words on the stack above it), or anything
    else. *)
Inductive event :=
| LoadDllEvent (pid : Z) (m : module)
| BreakpointEvent (pid : Z) (proc : process) (address : Z) (ra : Z) (params : list Z)
| OtherEvent.

(** ** State and effects *)

(** Everything the engine can change: the handler instance, the records
    sent to the logger, the files of the working directory, the breakpoints
    installed in the debugger, and the requests made to the target's memory
    and to the debugger (oldest first). *)
Record state := {
  self : CustomEventHandler;
  logged : list log_record;
  files : gmap string (list byte);
  breakpoints : list hook_entry;
  reads : list mem_read;
  calls : list debug_call;
}.

Definition with_self (h : CustomEventHandler) (s : state) : state :=
  {| self := h; logged := logged s; files := files s;
     breakpoints := breakpoints s; reads := reads s; calls := calls s |}.

Definition with_logged (l : list log_record) (s : state) : state :=
  {| self := self s; logged := l; files := files s;
     breakpoints := breakpoints s; reads := reads s; calls := calls s |}.

Definition with_files (f : gmap string (list byte)) (s : state) : state :=
  {| self := self s; logged := logged s; files := f;
     breakpoints := breakpoints s; reads := reads s; calls := calls s |}.

Definition with_breakpoints (b : list hook_entry) (s : state) : state :=
  {| self := self s; logged := logged s; files := files s;
     breakpoints := b; reads := reads s; calls := calls s |}.

Definition with_reads (r : list mem_read) (s : state) : state :=
  {| self := self s; logged := logged s; files := files s;
     breakpoints := breakpoints s; reads := r; calls := calls s |}.

Definition with_calls (c : list debug_call) (s : state) : state :=
  {| self := self s; logged := logged s; files := files s;
     breakpoints := breakpoints s; reads := reads s; calls := c |}.

(** A computation changes the state and returns or raises; what it changed
    before raising stays changed. *)
Definition M (A : Type) : Type := state -> state * result A.

Definition ret {A} (a : A) : M A := fun s => (s, Ok a).
Definition raise {A} (e : exn) : M A := fun s => (s, Raise e).
Definition bind {A B} (c : M A) (k : A -> M B) : M B :=
  fun s =>
    match c s with
    | (s', Ok a) => k a s'
    | (s', Raise e) => (s', Raise e)
    end.
Definition modify (f : state -> state) : M unit := fun s => (f s, Ok tt).
Definition gets {A} (f : state -> A) : M A := fun s => (s, Ok (f s)).
Definition lift {A} (r : result A) : M A := fun s => (s, r).

Notation "'let*' x ':=' c 'in' k" := (bind c (fun x => k))
  (at level 10, x name, c at level 100, k at level 200).
Notation "c ';;' k" := (bind c (fun _ => k))
  (at level 100, k at level 200, right associativity).

(** [self._log.<level>(msg, *args)] *)
Definition log (l : log_level) (m : string) (a : list log_arg) : M unit :=
  modify (fun s => with_logged (logged s ++ [{| levelname := l; msg := m; args := a |}]) s).

(** A request to the target's memory: noted, then answered by the process. *)
Definition mem {A} (what : mem_read) (answer : result A) : M A :=
  modify (fun s => with_reads (reads s ++ [what]) s) ;; lift answer.

(** A call on the debugger: noted. *)
Definition call (c : debug_call) : M unit :=
  modify (fun s => with_calls (calls s ++ [c]) s).

(** [with open(name, 'wb') as fh: fh.write(data)]: the file is created or
    truncated and holds exactly [data] afterwards. *)
Definition write_file (name : string) (data : list byte) : M unit :=
  modify (fun s => with_files (<[name := data]> (files s)) s).

(** ** The event handler *)

(** Options of one entry of the hook table: [{'args': n, 'hook': name}]. *)
Record hook_options := {
  opt_args : nat;
  opt_hook : string;
}.

(** The list of modules and functions to hook.  A dictionary in the source;
    the pairs are listed here in the order the source writes them, and
    nothing proved below about [_apply_hooks] depends on that order. *)
Definition _hooks : list (string * list (string * hook_options)) :=
  [ ("ole32.dll",
     [ ("OleLoad", {| opt_args := 4; opt_hook := "_hook_load" |});
       ("OleConvertOLESTREAMToIStorage",
        {| opt_args := 3; opt_hook := "_hook_data_conversion" |});
       ("OleGetAutoConvert", {| opt_args := 2; opt_hook := "_hook_guid_conversion" |}) ]) ].

(** [CustomEventHandler(logger)]: no object tracked, nothing pending. *)
Definition new_handler : CustomEventHandler :=
  {| _last_pstg := None; objects := ∅ |}.

Definition set_last_pstg (v : option Z) : M unit :=
  modify (fun s => with_self {| _last_pstg := v; objects := objects (self s) |} s).

Definition set_objects (f : gmap Z info -> gmap Z info) : M unit :=
  modify (fun s =>
    with_self {| _last_pstg := _last_pstg (self s); objects := f (objects (self s)) |} s).

(** [self.objects[key]] read: a [KeyError] when the key is absent. *)
Definition objects_getitem (key : Z) : M info :=
  let* o := gets (fun s => objects (self s) !! key) in
  match o with
  | Some i => ret i
  | None => raise (KeyError key)
  end.

(** The hook method of a given name, if the handler has one. *)
Definition method_named (name : string) : option method :=
  if String.eqb name "_hook_load" then Some hook_load
  else if String.eqb name "_hook_data_conversion" then Some hook_data_conversion
  else if String.eqb name "_hook_guid_conversion" then Some hook_guid_conversion
  else None.

(** [getattr(self, name)]: an [AttributeError] when there is no such
    method. *)
Definition getattr (name : string) : M method :=
  match method_named name with
  | Some callback => ret callback
  | None => raise (AttributeError name)
  end.

Section Handler.

(** [bytes_to_clsid] of the repository's [utils] module and the table
    [KNOWN_CLSIDS] of [oletools] are not part of the sources at hand; the
    engine is modelled for any such function and any such table. *)
Variable bytes_to_clsid : list byte -> string.
Variable KNOWN_CLSIDS : gmap string string.

(** Event hook for [OleLoad]: saves the [pStg] address. *)
Definition _hook_load (_ra pstg _riid _pclientsite _ppvobjx : Z) : M unit :=
  set_last_pstg (Some pstg).

(** Event hook for [OleGetAutoConvert]; [proc] is [event.get_process()]. *)
Definition _hook_guid_conversion (proc : process) (_ra clsid_old _pclsid_new : Z)
  : M unit :=
  let* clsid_bytes := mem (Read clsid_old 16) (read proc clsid_old 16) in
  let clsid := bytes_to_clsid clsid_bytes in
  let* last := gets (fun s => _last_pstg (self s)) in
  if truthy last then
    let key := default 0 last in
    let* inf := objects_getitem key in
    set_objects (alter (set_class_id clsid) key) ;;
    match KNOWN_CLSIDS !! clsid with
    | Some known =>
        log WARNING "Suspicious OLE object loaded, class id %s (%s)"
            [AStr clsid; AStr known] ;;
        log WARNING "Object size is %d, SHA256 is %s"
            [AInt (info_size inf); AStr (info_sha256 inf)] ;;
        set_objects (alter (set_description known) key)
    | None =>
        log WARNING "Object found but not on blacklist %s" [AStr clsid] ;;
        set_objects (alter (set_description "Unknown (not blacklisted)") key)
    end ;;
    set_last_pstg None
  else ret tt.

(** Event hook for [OleConvertOLESTREAMToIStorage]. *)
Definition _hook_data_conversion (proc : process) (ra lpolestream pstg ptd : Z)
  : M unit :=
  let* field := mem (PeekPointer (lpolestream + 8)) (peek_pointer proc (lpolestream + 8)) in
  let* data_addr := mem (PeekPointer field) (peek_pointer proc field) in
  let* size := mem (PeekDword (lpolestream + 12)) (peek_dword proc (lpolestream + 12)) in
  let* data := mem (Read data_addr size) (read proc data_addr size) in
  let sha256 := SHA256.hexdigest data in
  write_file sha256 data ;;
  set_objects (<[pstg := {| info_size := size; info_sha256 := sha256;
                             info_class_id := None; info_description := None |}]>) ;;
  log DEBUG "Dumping data from 0x%08x, destination 0x%08x, length %d, hash %s"
      [AInt data_addr; AInt pstg; AInt size; AStr sha256].

(** [event.debug.hook_function(pid, address, callback, signature=signature)] *)
Definition hook_function (pid address : Z) (callback : method) (signature : nat)
  : M unit :=
  modify (fun s =>
    with_breakpoints
      (breakpoints s ++ [{| hk_pid := pid; hk_address := address;
                            hk_callback := callback; hk_arity := signature |}]) s).

(** Add hooks to the specified module. *)
Fixpoint _apply_hooks (pid : Z) (m : module) (hooks : list (string * hook_options))
  : M bool :=
  match hooks with
  | [] => ret true
  | (func, options) :: rest =>
      let address := resolve m func in
      if truthy address then
        log DEBUG "Address of %s is 0x%08x" [AStr func; AInt (default 0 address)] ;;
        let signature := opt_args options in
        let* callback := getattr (opt_hook options) in
        hook_function pid (default 0 address) callback signature ;;
        _apply_hooks pid m rest
      else
        log ERROR "Could not find function %s to hook" [AStr func] ;;
        ret false
  end.

(** The callback for a module load, over a table of hooks: the result of
    [_apply_hooks] is dropped. *)
Fixpoint load_dll_over (table : list (string * list (string * hook_options)))
  (pid : Z) (m : module) : M unit :=
  match table with
  | [] => ret tt
  | (dll, hooks) :: rest =>
      (if match_name m dll then
         log DEBUG "Process loaded %s, hooks exist for this module" [AStr (get_name m)] ;;
         let* _ := _apply_hooks pid m hooks in
         ret tt
       else ret tt) ;;
      load_dll_over rest pid m
  end.

Definition load_dll : Z -> module -> M unit := load_dll_over _hooks.

End Handler.

(** ** The session *)

(** [win32.ERROR_SEM_TIMEOUT] and [win32.WAIT_TIMEOUT]. *)
Definition ERROR_SEM_TIMEOUT : Z := 121.
Definition WAIT_TIMEOUT : Z := 258.

(** [try: body finally: cleanup]: the cleanup runs however the body ends,
    and the body's outcome stands unless the cleanup itself raises. *)
Definition try_finally {A} (body : M A) (cleanup : M unit) : M A :=
  fun s =>
    match body s with
    | (s1, r) =>
        match cleanup s1 with
        | (s2, Ok _) => (s2, r)
        | (s2, Raise e) => (s2, Raise e)
        end
    end.

(** The outcome of a computation as a value, for an [except] clause to
    inspect. *)
Definition attempt {A} (c : M A) : M (result A) :=
  fun s => match c s with (s1, r) => (s1, Ok r) end.

(** What the loop does after one pass over its body. *)
Inductive control := Continue | Break.

(** What the debugger answers during one pass of the loop: the number of
    debuggees, the clock, and the outcome of [debug.wait(1000)].  The clock
    is only added to and compared, so it is taken in whole units. *)
Record tick := {
  debugee_count : Z;
  clock : Z;
  waited : result event;
}.

(** What the outside world does during one call of [office_debugger]: the
    clock when the deadline is computed, the outcome of [debug.execv], and
    the answers of the debugger, one per pass of the loop. *)
Record session := {
  start_time : Z;
  execv_outcome : result unit;
  ticks : list tick;
}.

Section Session.

Variable bytes_to_clsid : list byte -> string.
Variable KNOWN_CLSIDS : gmap string string.

(** What the debugger's dispatcher does with an exception a callback
    raised: [Some e'] to raise [e'] out of [dispatch], [None] to report it
    and go on.  The dispatcher belongs to the debugger library; the
    session is modelled for any such policy. *)
Variable callback_policy : exn -> option exn.

(** Calling a hook with the return address and the captured arguments. *)
Definition call_method (c : method) (proc : process) (ra : Z) (params : list Z)
  : M unit :=
  match c, params with
  | hook_load, [pstg; riid; pclientsite; ppvobj] =>
      _hook_load ra pstg riid pclientsite ppvobj
  | hook_data_conversion, [lpolestream; pstg; ptd] =>
      _hook_data_conversion proc ra lpolestream pstg ptd
  | hook_guid_conversion, [clsid_old; pclsid_new] =>
      _hook_guid_conversion bytes_to_clsid KNOWN_CLSIDS proc ra clsid_old pclsid_new
  | _, _ => raise TypeError
  end.

Definition under_policy (c : M unit) : M unit :=
  let* r := attempt c in
  match r with
  | Ok _ => ret tt
  | Raise e =>
      match callback_policy e with
      | Some e' => raise e'
      | None => ret tt
      end
  end.

(** The hook most recently set at an address of a process. *)
Definition hook_at (pid address : Z) (bps : list hook_entry) : option hook_entry :=
  find (fun h => (hk_pid h =? pid) && (hk_address h =? address)) (rev bps).

(** [debug.dispatch()]: the event goes to the handler's callback for it. *)
Definition dispatch (ev : event) : M unit :=
  call Dispatch ;;
  match ev with
  | LoadDllEvent pid m => under_policy (load_dll pid m)
  | BreakpointEvent pid proc address ra params =>
      let* bps := gets breakpoints in
      match hook_at pid address bps with
      | Some h =>
          under_policy (call_method (hk_callback h) proc ra (firstn (hk_arity h) params))
      | None => ret tt
      end
  | OtherEvent => ret tt
  end.

(** One pass of the [while] loop of [office_debugger]. *)
Definition iteration (max_time : Z) (t : tick) : M control :=
  if (0 <? debugee_count t) && (clock t <? max_time) then
    let* w := attempt (call (Wait 1000) ;; lift (waited t)) in
    match w with
    | Raise (WindowsError winerror) =>
        if (winerror =? ERROR_SEM_TIMEOUT) || (winerror =? WAIT_TIMEOUT)
        then ret Continue
        else raise (WindowsError winerror)
    | Raise e => raise e
    | Ok ev =>
        try_finally (dispatch ev) (call Cont) ;;
        ret Continue
    end
  else ret Break.

(** The loop, for as many passes as the debugger's answers are given;
    [None] when they run out before the loop has ended. *)
Fixpoint event_loop (max_time : Z) (answers : list tick) (s : state)
  : option (state * result unit) :=
  match answers with
  | [] => None
  | t :: rest =>
      match iteration max_time t s with
      | (s1, Ok Continue) => event_loop max_time rest s1
      | (s1, Ok Break) => Some (s1, Ok tt)
      | (s1, Raise e) => Some (s1, Raise e)
      end
  end.

(** What precedes the loop inside the [with] block. *)
Definition launch (opts : list string) (outcome : result unit) : M unit :=
  call SetKillOnExit ;;
  let* r := attempt (call (Execv opts) ;; lift outcome) in
  match r with
  | Raise (WindowsError _) =>
      log ERROR "Could not run Office application, check it is 32-bit" []
  | Raise e => raise e
  | Ok _ => ret tt
  end.

(** [office_debugger(executable, target_file, timeout, save_objs)] run
    from the state [s0] of the outside world against the session [env].
    A fresh handler and a fresh debugger are created; the function has no
    [return] statement, so what it hands back on normal exit is [None]. *)
Definition office_debugger (executable target_file : string) (timeout : Z)
  (save_objs : bool) (env : session) (s0 : state)
  : option (state * result pyvalue) :=
  let opts := [executable; target_file] in
  let s := with_breakpoints [] (with_self new_handler s0) in
  let max_time := start_time env + timeout in
  match launch opts (execv_outcome env) s with
  | (s1, Raise e) =>
      (* an exception other than WindowsError: only the [with] block is left *)
      Some (fst (call ExitDebug s1), Raise e)
  | (s1, Ok _) =>
      match event_loop max_time (ticks env) s1 with
      | None => None
      | Some (s2, r) =>
          (* [finally: debug.stop()], then the [with] block is left *)
          let s3 := fst ((call Stop ;; call ExitDebug) s2) in
          Some (s3, match r with Ok _ => Ok PyNone | Raise e => Raise e end)
      end
  end.

End Session.

(** ** A simulated target, for running the engine on concrete inputs *)

Module Sim.

(** [ERROR_PARTIAL_COPY], the code of a failed remote read. *)
Definition ERROR_PARTIAL_COPY : Z := 299.

(** The target's memory: the mapped addresses and the byte at each. *)
Definition read_bytes (memory : gmap Z byte) (address nbytes : Z) : result (list byte) :=
  match mapM (fun i => memory !! (address + Z.of_nat i)) (seq 0 (Z.to_nat nbytes)) with
  | Some bs => Ok bs
  | None => Raise (WindowsError ERROR_PARTIAL_COPY)
  end.

Definition le_value (bs : list byte) : Z :=
  fold_right (fun b acc => Z_of_byte b + 256 * acc) 0 bs.

Definition peek32 (memory : gmap Z byte) (address : Z) : result Z :=
  match read_bytes memory address 4 with
  | Ok bs => Ok (le_value bs)
  | Raise e => Raise e
  end.

(** A 32-bit process over a memory: pointers and dwords are four bytes,
    least significant first; a read of an unmapped byte fails. *)
Definition proc (memory : gmap Z byte) : process :=
  {| peek_pointer := peek32 memory;
     peek_dword := peek32 memory;
     read := read_bytes memory |}.

Fixpoint place (address : Z) (bs : list byte) (memory : gmap Z byte) : gmap Z byte :=
  match bs with
  | [] => memory
  | b :: r => <[address := b]> (place (address + 1) r memory)
  end.

Fixpoint le_bytes (n : nat) (x : Z) : list byte :=
  match n with
  | O => []
  | S k => byte_of_Z x :: le_bytes k (x / 256)
  end.

Definition upper_hex_digit (n : Z) : ascii :=
  match String.get (Z.to_nat n) "0123456789ABCDEF" with
  | Some c => c
  | None => "?"%char
  end.

Fixpoint upper_hex (bs : list byte) : string :=
  match bs with
  | [] => EmptyString
  | b :: r =>
      String (upper_hex_digit (Z_of_byte b / 16))
        (String (upper_hex_digit (Z_of_byte b mod 16)) (upper_hex r))
  end.

(** A rendering of sixteen bytes as the text of a class identifier: the
    first three fields least significant byte first, the rest in order. *)
Definition clsid_text (bs : list byte) : string :=
  upper_hex (rev (firstn 4 bs)) +:+ "-" +:+
  upper_hex (rev (firstn 2 (skipn 4 bs))) +:+ "-" +:+
  upper_hex (rev (firstn 2 (skipn 6 bs))) +:+ "-" +:+
  upper_hex (firstn 2 (skipn 8 bs)) +:+ "-" +:+
  upper_hex (firstn 6 (skipn 10 bs)).

(** A table with one entry, the OLE Package class. *)
Definition known : gmap string string :=
  {[ "F20DA720-C02F-11CE-927B-0800095AE340" := "OLE Package Object" ]}.

Definition package_clsid : list byte :=
  map byte_of_Z [0x20; 0xA7; 0x0D; 0xF2; 0x2F; 0xC0; 0xCE; 0x11;
                 0x92; 0x7B; 0x08; 0x00; 0x09; 0x5A; 0xE3; 0x40].

Definition other_clsid : list byte :=
  map byte_of_Z [0x06; 0x09; 0x02; 0x00; 0x00; 0x00; 0x00; 0x00;
                 0xC0; 0x00; 0x00; 0x00; 0x00; 0x00; 0x00; 0x46].

(** Forty-two bytes of data: 0, 1, ..., 41. *)
Definition payload : list byte := map (fun i => byte_of_Z (Z.of_nat i)) (seq 0 42).

(** A memory holding a stream structure at 0x1000 whose field at offset 8
    points to 0x2000, where the address 0x3000 of the data is stored, and
    whose field at offset 12 holds the length 42; the two class
    identifiers are at 0x4000 and 0x5000. *)
Definition memory : gmap Z byte :=
  place 0x1008 (le_bytes 4 0x2000)
    (place 0x100C (le_bytes 4 42)
      (place 0x2000 (le_bytes 4 0x3000)
        (place 0x3000 payload
          (place 0x4000 package_clsid
            (place 0x5000 other_clsid ∅))))).

(** The same stream structure, but the data address 0x3000 is not mapped. *)
Definition torn_memory : gmap Z byte :=
  place 0x1008 (le_bytes 4 0x2000)
    (place 0x100C (le_bytes 4 42)
      (place 0x2000 (le_bytes 4 0x3000) ∅)).

(** An idle world: a new handler, nothing logged, written or installed. *)
Definition idle : state :=
  {| self := new_handler; logged := []; files := ∅;
     breakpoints := []; reads := []; calls := [] |}.

(** [ole32.dll] with all three functions exported. *)
Definition ole32 : module :=
  {| get_name := "ole32.dll";
     match_name := String.eqb "ole32.dll";
     resolve := fun f =>
       if String.eqb f "OleLoad" then Some 0x7000
       else if String.eqb f "OleConvertOLESTREAMToIStorage" then Some 0x7100
       else if String.eqb f "OleGetAutoConvert" then Some 0x7200
       else None |}.

(** An [ole32.dll] that exports [OleConvertOLESTREAMToIStorage] only. *)
Definition partial_ole32 : module :=
  {| get_name := "ole32.dll";
     match_name := String.eqb "ole32.dll";
     resolve := fun f =>
       if String.eqb f "OleConvertOLESTREAMToIStorage" then Some 0x7100 else None |}.

(** Dispatchers that pass a callback's exception on, or drop it. *)
Definition passing : exn -> option exn := Some.
Definition dropping : exn -> option exn := fun _ => None.

(** The world after the data-conversion call on the stream structure at
    0x1000 with destination storage 0x99. *)
Definition tracked : state :=
  fst (_hook_data_conversion (proc memory) 0 0x1000 0x99 0 idle).

(** Then [OleLoad] is called on the storage 0x99. *)
Definition pending : state := fst (_hook_load 0 0x99 0 0 0 tracked).

(** [OleLoad] called on a storage no data-conversion call recorded. *)
Definition pending_untracked : state := fst (_hook_load 0 0x99 0 0 0 idle).

(** An [ole32.dll] that lacks [OleConvertOLESTREAMToIStorage]. *)
Definition ole32_without_convert : module :=
  {| get_name := "ole32.dll";
     match_name := String.eqb "ole32.dll";
     resolve := fun f =>
       if String.eqb f "OleLoad" then Some 0x7000
       else if String.eqb f "OleGetAutoConvert" then Some 0x7200
       else None |}.

(** The world once [ole32.dll] was loaded and its three hooks set. *)
Definition instrumented : state := fst (load_dll 7 ole32 idle).

(** Events of the process 7, and the debugger's answers carrying them. *)
Definition ole32_loaded : event := LoadDllEvent 7 ole32.
Definition convert_called (m : gmap Z byte) : event :=
  BreakpointEvent 7 (proc m) 0x7100 0 [0x1000; 0x99; 0; 0].
Definition load_called : event :=
  BreakpointEvent 7 (proc memory) 0x7000 0 [0x99; 0; 0; 0].
Definition guid_called (clsid_old : Z) : event :=
  BreakpointEvent 7 (proc memory) 0x7200 0 [clsid_old; 0; 0; 0].

Definition delivers (now : Z) (ev : event) : tick :=
  {| debugee_count := 1; clock := now; waited := Ok ev |}.
Definition times_out (now : Z) : tick :=
  {| debugee_count := 1; clock := now; waited := Raise (WindowsError WAIT_TIMEOUT) |}.

(** A session started at time 0: the module loads, the data-conversion
    call is made, then the debugger only times out; with a timeout of 10
    the deadline has passed at the last answer. *)
Definition quiet_session : session :=
  {| start_time := 0;
     execv_outcome := Ok tt;
     ticks := [delivers 1 ole32_loaded; delivers 2 (convert_called memory);
               times_out 4; times_out 7; times_out 11] |}.

End Sim.

(** ** Notions the properties are stated with *)

(** The state after a data-conversion call whose reads gave the pointer
    [field], the address [data_addr], the length [size] and the bytes
    [data]. *)
Definition extracted (lpolestream pstg field data_addr size : Z) (data : list byte)
  (s : state) : state :=
  with_logged
    (logged s ++
       [{| levelname := DEBUG;
           msg := "Dumping data from 0x%08x, destination 0x%08x, length %d, hash %s";
           args := [AInt data_addr; AInt pstg; AInt size; AStr (SHA256.hexdigest data)] |}])
    (with_self
       {| _last_pstg := _last_pstg (self s);
          objects := <[pstg := {| info_size := size;
                                  info_sha256 := SHA256.hexdigest data;
                                  info_class_id := None; info_description := None |}]>
                       (objects (self s)) |}
       (with_files (<[SHA256.hexdigest data := data]> (files s))
          (with_reads
             (reads s ++ [PeekPointer (lpolestream + 8); PeekPointer field;
                          PeekDword (lpolestream + 12); Read data_addr size])
             s))).

(** The state once the sixteen bytes of the identifier were asked for. *)
Definition asked (clsid_old : Z) (s : state) : state :=
  with_reads (reads s ++ [Read clsid_old 16]) s.

(** The handler after a classification: the object at [h] carries the
    identifier and the description, and nothing is pending. *)
Definition classified (h : Z) (clsid description : string) (c : CustomEventHandler)
  : CustomEventHandler :=
  {| _last_pstg := None;
     objects := alter (set_description description) h
                  (alter (set_class_id clsid) h (objects c)) |}.

(** One of the four remote reads of the data-conversion hook fails with
    [e]; the index lists the requests made up to and including that one. *)
Inductive extraction_fails (proc : process) (lpolestream : Z) (e : exn)
  : list mem_read -> Prop :=
| fails_at_field :
    peek_pointer proc (lpolestream + 8) = Raise e ->
    extraction_fails proc lpolestream e [PeekPointer (lpolestream + 8)]
| fails_at_address field :
    peek_pointer proc (lpolestream + 8) = Ok field ->
    peek_pointer proc field = Raise e ->
    extraction_fails proc lpolestream e [PeekPointer (lpolestream + 8); PeekPointer field]
| fails_at_length field data_addr :
    peek_pointer proc (lpolestream + 8) = Ok field ->
    peek_pointer proc field = Ok data_addr ->
    peek_dword proc (lpolestream + 12) = Raise e ->
    extraction_fails proc lpolestream e
      [PeekPointer (lpolestream + 8); PeekPointer field; PeekDword (lpolestream + 12)]
| fails_at_data field data_addr size :
    peek_pointer proc (lpolestream + 8) = Ok field ->
    peek_pointer proc field = Ok data_addr ->
    peek_dword proc (lpolestream + 12) = Ok size ->
    read proc data_addr size = Raise e ->
    extraction_fails proc lpolestream e
      [PeekPointer (lpolestream + 8); PeekPointer field; PeekDword (lpolestream + 12);
       Read data_addr size].

(** A call of one of the three hooked functions, as the handler sees it. *)
Inductive hook_call :=
| OleLoad (ra pstg riid pclientsite ppvobj : Z)
| OleConvertOLESTREAMToIStorage (proc : process) (ra lpolestream pstg ptd : Z)
| OleGetAutoConvert (proc : process) (ra clsid_old pclsid_new : Z).

(** The hook a call arrives at. *)
Definition handle (bytes_to_clsid : list byte -> string) (KNOWN_CLSIDS : gmap string string)
  (c : hook_call) : M unit :=
  match c with
  | OleLoad ra pstg riid pclientsite ppvobj =>
      _hook_load ra pstg riid pclientsite ppvobj
  | OleConvertOLESTREAMToIStorage proc ra lpolestream pstg ptd =>
      _hook_data_conversion proc ra lpolestream pstg ptd
  | OleGetAutoConvert proc ra clsid_old pclsid_new =>
      _hook_guid_conversion bytes_to_clsid KNOWN_CLSIDS proc ra clsid_old pclsid_new
  end.

(** The state after a sequence of calls, each handled whether the one
    before it returned or raised. *)
Definition after_calls (bytes_to_clsid : list byte -> string)
  (KNOWN_CLSIDS : gmap string string) (cs : list hook_call) (s : state) : state :=
  fold_left (fun st c => fst (handle bytes_to_clsid KNOWN_CLSIDS c st)) cs s.

(** The storage handle of the latest [OleLoad] among the calls, or
    [before] when there is none. *)
Fixpoint last_loaded (cs : list hook_call) (before : option Z) : option Z :=
  match cs with
  | [] => before
  | OleLoad _ pstg _ _ _ :: rest => last_loaded rest (Some pstg)
  | _ :: rest => last_loaded rest before
  end.

(** The hooks declared for [ole32.dll]. *)
Definition ole32_hooks : list (string * hook_options) :=
  match _hooks with
  | (_, hooks) :: _ => hooks
  | [] => []
  end.

Definition error_record (func : string) : log_record :=
  {| levelname := ERROR; msg := "Could not find function %s to hook";
     args := [AStr func] |}.

(** The breakpoint set and the record logged for a declared hook whose
    function resolves in the module. *)
Definition hooked (pid : Z) (m : module) (fo : string * hook_options)
  : option (hook_entry * log_record) :=
  match resolve m (fst fo), method_named (opt_hook (snd fo)) with
  | Some address, Some callback =>
      if address =? 0 then None
      else Some ({| hk_pid := pid; hk_address := address; hk_callback := callback;
                    hk_arity := opt_args (snd fo) |},
                 {| levelname := DEBUG; msg := "Address of %s is 0x%08x";
                    args := [AStr (fst fo); AInt address] |})
  | _, _ => None
  end.

(** The state after hooks were set, with the records logged for them. *)
Definition installing (es : list (hook_entry * log_record)) (s : state) : state :=
  with_breakpoints (breakpoints s ++ map fst es) (with_logged (logged s ++ map snd es) s).

(** What the specification expects after a module load: every declared
    function that resolves has its breakpoint, and every one that does not
    is named by an error record. *)
Definition names_function (func : string) (r : log_record) : bool :=
  match levelname r, args r with
  | ERROR, [AStr f] => String.eqb f func
  | _, _ => false
  end.

Definition all_but_unresolved_installed (m : module) (hooks : list (string * hook_options))
  (s : state) : bool :=
  forallb (fun fo =>
             if truthy (resolve m (fst fo))
             then existsb (fun h => hk_address h =? default 0 (resolve m (fst fo)))
                    (breakpoints s)
             else existsb (names_function (fst fo)) (logged s))
          hooks.

(** A computation that makes no call on the debugger. *)
Definition keeps_calls {A} (c : M A) : Prop :=
  forall s, calls (fst (c s)) = calls s.

(** The state once [debug.wait(1000)] was called. *)
Definition waiting (s : state) : state := with_calls (calls s ++ [Wait 1000]) s.

(** Every [Dispatch] among the calls is followed at once by [Cont]. *)
Fixpoint resumed_after_dispatch (tr : list debug_call) : bool :=
  match tr with
  | [] => true
  | Dispatch :: rest =>
      match rest with
      | Cont :: rest' => resumed_after_dispatch rest'
      | _ => false
      end
  | _ :: rest => resumed_after_dispatch rest
  end.

(** The state after some passes of the loop, when each of them ended by
    going on to the next. *)
Fixpoint passes (bytes_to_clsid : list byte -> string) (KNOWN_CLSIDS : gmap string string)
  (callback_policy : exn -> option exn) (max_time : Z) (answers : list tick) (s : state)
  : option state :=
  match answers with
  | [] => Some s
  | t :: rest =>
      match iteration bytes_to_clsid KNOWN_CLSIDS callback_policy max_time t s with
      | (s1, Ok Continue) =>
          passes bytes_to_clsid KNOWN_CLSIDS callback_policy max_time rest s1
      | _ => None
      end
  end.

(** The debugger has a debuggee, the deadline is not reached, and the wait
    ends with one of the two timeout codes. *)
Definition reports_timeout (max_time : Z) (t : tick) : bool :=
  (0 <? debugee_count t) && (clock t <? max_time) &&
  match waited t with
  | Raise (WindowsError winerror) =>
      (winerror =? ERROR_SEM_TIMEOUT) || (winerror =? WAIT_TIMEOUT)
  | _ => false
  end.

(** A part of the state that a computation leaves as it is, however the
    computation ends. *)
Definition unchanged {X A} (part : state -> X) (c : M A) : Prop :=
  forall s, part (fst (c s)) = part s.


(** Every tracked object has a file named by its digest. *)
Definition backed (s : state) : Prop :=
  forall key inf,
    objects (self s) !! key = Some inf -> is_Some (files s !! info_sha256 inf).

(** A text of lowercase hexadecimal digits only. *)
Fixpoint all_hex (s : string) : bool :=
  match s with
  | EmptyString => true
  | String c r => bool_decide (is_Some (nibble_of_ascii c)) && all_hex r
  end.

(** A breakpoint the table declares for the module: set in the process of
    the event, at the non-null address the module resolves a declared
    function to, with the callback and the number of arguments declared
    for that function. *)
Definition declared_hook (pid : Z) (m : module) (hooks : list (string * hook_options))
  (h : hook_entry) : Prop :=
  hk_pid h = pid /\ hk_address h <> 0
  /\ exists func options,
      In (func, options) hooks
      /\ resolve m func = Some (hk_address h)
      /\ method_named (opt_hook options) = Some (hk_callback h)
      /\ hk_arity h = opt_args options.

(** The result of a run, from the result of its loop: [debug.stop()] is
    called, the debugger is left, and the loop's exception, if any, is the
    run's. *)
Definition ended (loop : option (state * result unit)) : option (state * result pyvalue) :=
  match loop with
  | None => None
  | Some (s2, r) =>
      Some (with_calls (calls s2 ++ [Stop; ExitDebug]) s2,
            match r with Ok _ => Ok PyNone | Raise e => Raise e end)
  end.

(** * Properties *)

(** ** SHA-256 against the digests [hashlib] gives *)

Example sha256_abc :
  SHA256.hexdigest (bytes_of_string "abc")
  = "ba7816bf8f01cfea414140de5dae2223b00361a396177a9cb410ff61f20015ad".
Proof. vm_compute. reflexivity. Qed.

Example sha256_empty :
  SHA256.hexdigest []
  = "e3b0c44298fc1c149afbf4c8996fb92427ae41e4649b934ca495991b7852b855".
Proof. vm_compute. reflexivity. Qed.

Example sha256_two_blocks :
  SHA256.hexdigest
    (bytes_of_string "abcdbcdecdefdefgefghfghighijhijkijkljklmklmnlmnomnopnopq")
  = "248d6a61d20638b8e5c026930c3e6039a33ce45964ff2167f6ecedd419db06c1".
Proof. vm_compute. reflexivity. Qed.

(** ** Running computations: the equations of the monad *)

Lemma bind_Ok {A B} (c : M A) (k : A -> M B) (s s1 : state) (a : A) :
  c s = (s1, Ok a) -> bind c k s = k a s1.
Proof. unfold bind. intros ->. reflexivity. Qed.

Lemma bind_Raise {A B} (c : M A) (k : A -> M B) (s s1 : state) (e : exn) :
  c s = (s1, Raise e) -> bind c k s = (s1, Raise e).
Proof. unfold bind. intros ->. reflexivity. Qed.

Lemma mem_Ok {A} (what : mem_read) (a : A) (s : state) :
  mem what (Ok a) s = (with_reads (reads s ++ [what]) s, Ok a).
Proof. reflexivity. Qed.

Lemma mem_Raise {A} (what : mem_read) (e : exn) (s : state) :
  @mem A what (Raise e) s = (with_reads (reads s ++ [what]) s, Raise e).
Proof. reflexivity. Qed.

(** Unfolds the straight-line parts of a computation. *)
Ltac run :=
  cbv [bind ret raise modify gets lift log call write_file set_last_pstg set_objects
       objects_getitem mem attempt try_finally];
  cbn [self logged files breakpoints reads calls _last_pstg objects
       with_self with_logged with_files with_breakpoints with_reads with_calls
       fst snd truthy default from_option id negb].

(** ** The Stream Extractor *)

Lemma data_conversion_succeeds proc ra lpolestream pstg ptd field data_addr size data s :
  peek_pointer proc (lpolestream + 8) = Ok field ->
  peek_pointer proc field = Ok data_addr ->
  peek_dword proc (lpolestream + 12) = Ok size ->
  read proc data_addr size = Ok data ->
  _hook_data_conversion proc ra lpolestream pstg ptd s
  = (extracted lpolestream pstg field data_addr size data s, Ok tt).
Proof.
  intros Hfield Haddr Hsize Hdata.
  unfold _hook_data_conversion. rewrite Hfield.
  erewrite bind_Ok by apply mem_Ok.
  rewrite Haddr. erewrite bind_Ok by apply mem_Ok.
  rewrite Hsize. erewrite bind_Ok by apply mem_Ok.
  rewrite Hdata. erewrite bind_Ok by apply mem_Ok.
  run. unfold extracted. rewrite <- !app_assoc. reflexivity.
Qed.

(** C1. For a data-conversion call with stream structure [lpolestream] and
    destination storage [pstg] whose remote reads succeed, the hook reads
    the pointer at offset 8 of the structure, reads the pointer stored
    there to get the data address, reads the length at offset 12, reads
    that many bytes at the data address, writes them to the file named by
    their SHA-256 hex digest, and sets the tracked object of [pstg] to that
    length and digest. *)
Theorem data_conversion_extracts
    (proc : process) (ra lpolestream pstg ptd field data_addr size : Z)
    (data : list byte) (s : state) :
  peek_pointer proc (lpolestream + 8) = Ok field ->
  peek_pointer proc field = Ok data_addr ->
  peek_dword proc (lpolestream + 12) = Ok size ->
  read proc data_addr size = Ok data ->
  exists s',
    _hook_data_conversion proc ra lpolestream pstg ptd s = (s', Ok tt)
    /\ reads s' = reads s ++ [PeekPointer (lpolestream + 8); PeekPointer field;
                              PeekDword (lpolestream + 12); Read data_addr size]
    /\ files s' = <[SHA256.hexdigest data := data]> (files s)
    /\ files s' !! SHA256.hexdigest data = Some data
    /\ objects (self s')
       = <[pstg := {| info_size := size; info_sha256 := SHA256.hexdigest data;
                      info_class_id := None; info_description := None |}]>
           (objects (self s))
    /\ (exists i, objects (self s') !! pstg = Some i
                  /\ info_size i = size /\ info_sha256 i = SHA256.hexdigest data)
    /\ _last_pstg (self s') = _last_pstg (self s).
Proof.
  intros Hfield Haddr Hsize Hdata.
  exists (extracted lpolestream pstg field data_addr size data s).
  split; [apply data_conversion_succeeds; assumption|].
  cbn. repeat split.
  - apply lookup_insert_eq.
  - eexists. split; [apply lookup_insert_eq|]. split; reflexivity.
Qed.

Lemma data_conversion_extracts_witness :
  exists s',
    _hook_data_conversion (Sim.proc Sim.memory) 0 0x1000 0x99 0 Sim.idle = (s', Ok tt)
    /\ reads s' = reads Sim.idle ++ [PeekPointer (0x1000 + 8); PeekPointer 0x2000;
                                     PeekDword (0x1000 + 12); Read 0x3000 42]
    /\ files s' = <[SHA256.hexdigest Sim.payload := Sim.payload]> (files Sim.idle)
    /\ files s' !! SHA256.hexdigest Sim.payload = Some Sim.payload
    /\ objects (self s')
       = <[0x99 := {| info_size := 42; info_sha256 := SHA256.hexdigest Sim.payload;
                      info_class_id := None; info_description := None |}]>
           (objects (self Sim.idle))
    /\ (exists i, objects (self s') !! 0x99 = Some i
                  /\ info_size i = 42 /\ info_sha256 i = SHA256.hexdigest Sim.payload)
    /\ _last_pstg (self s') = _last_pstg (self Sim.idle).
Proof.
  apply (data_conversion_extracts (Sim.proc Sim.memory) 0 0x1000 0x99 0 0x2000 0x3000 42
           Sim.payload Sim.idle); vm_compute; reflexivity.
Defined.

(** The scenario of the specification: the digest of the forty-two bytes is
    the one SHA-256 gives them. *)
Example payload_digest :
  SHA256.hexdigest Sim.payload
  = "40a1ed73b46030c8d7e88682078c5ab1ae5a2e524e066e8c8743c484de0e21e5"
  /\ length Sim.payload = 42%nat.
Proof. split; vm_compute; reflexivity. Qed.

(** ** The guid-conversion hook, case by case *)

Section GuidConversion.

Variable bytes_to_clsid : list byte -> string.
Variable KNOWN_CLSIDS : gmap string string.

Local Abbreviation guid := (_hook_guid_conversion bytes_to_clsid KNOWN_CLSIDS).

Lemma guid_read_fails proc ra clsid_old pclsid_new s e :
  read proc clsid_old 16 = Raise e ->
  guid proc ra clsid_old pclsid_new s = (asked clsid_old s, Raise e).
Proof.
  intros Hread. unfold _hook_guid_conversion.
  rewrite Hread. erewrite bind_Raise by apply mem_Raise. reflexivity.
Qed.

Lemma guid_idle proc ra clsid_old pclsid_new s bs :
  read proc clsid_old 16 = Ok bs ->
  truthy (_last_pstg (self s)) = false ->
  guid proc ra clsid_old pclsid_new s = (asked clsid_old s, Ok tt).
Proof.
  intros Hread Hidle. unfold _hook_guid_conversion.
  rewrite Hread. erewrite bind_Ok by apply mem_Ok.
  run. rewrite Hidle. reflexivity.
Qed.

Lemma guid_untracked proc ra clsid_old pclsid_new s bs h :
  read proc clsid_old 16 = Ok bs ->
  _last_pstg (self s) = Some h -> h <> 0 ->
  objects (self s) !! h = None ->
  guid proc ra clsid_old pclsid_new s = (asked clsid_old s, Raise (KeyError h)).
Proof.
  intros Hread Hlast Hh Hnone. unfold _hook_guid_conversion.
  rewrite Hread. erewrite bind_Ok by apply mem_Ok.
  run. rewrite Hlast. run.
  destruct (Z.eqb_spec h 0) as [|_]; [contradiction|]. run.
  rewrite Hnone. reflexivity.
Qed.

Lemma guid_known proc ra clsid_old pclsid_new s bs h inf known :
  read proc clsid_old 16 = Ok bs ->
  _last_pstg (self s) = Some h -> h <> 0 ->
  objects (self s) !! h = Some inf ->
  KNOWN_CLSIDS !! bytes_to_clsid bs = Some known ->
  guid proc ra clsid_old pclsid_new s
  = (with_self (classified h (bytes_to_clsid bs) known (self s))
       (with_logged
          (logged s ++
             [ {| levelname := WARNING;
                  msg := "Suspicious OLE object loaded, class id %s (%s)";
                  args := [AStr (bytes_to_clsid bs); AStr known] |};
               {| levelname := WARNING;
                  msg := "Object size is %d, SHA256 is %s";
                  args := [AInt (info_size inf); AStr (info_sha256 inf)] |} ])
          (asked clsid_old s)),
     Ok tt).
Proof.
  intros Hread Hlast Hh Hsome Hknown. unfold _hook_guid_conversion.
  rewrite Hread. erewrite bind_Ok by apply mem_Ok.
  run. rewrite Hlast. run.
  destruct (Z.eqb_spec h 0) as [|_]; [contradiction|]. run.
  rewrite Hsome, Hknown. run.
  rewrite <- app_assoc. reflexivity.
Qed.

Lemma guid_unknown proc ra clsid_old pclsid_new s bs h inf :
  read proc clsid_old 16 = Ok bs ->
  _last_pstg (self s) = Some h -> h <> 0 ->
  objects (self s) !! h = Some inf ->
  KNOWN_CLSIDS !! bytes_to_clsid bs = None ->
  guid proc ra clsid_old pclsid_new s
  = (with_self (classified h (bytes_to_clsid bs) "Unknown (not blacklisted)" (self s))
       (with_logged
          (logged s ++
             [ {| levelname := WARNING;
                  msg := "Object found but not on blacklist %s";
                  args := [AStr (bytes_to_clsid bs)] |} ])
          (asked clsid_old s)),
     Ok tt).
Proof.
  intros Hread Hlast Hh Hsome Hknown. unfold _hook_guid_conversion.
  rewrite Hread. erewrite bind_Ok by apply mem_Ok.
  run. rewrite Hlast. run.
  destruct (Z.eqb_spec h 0) as [|_]; [contradiction|]. run.
  rewrite Hsome, Hknown. run. reflexivity.
Qed.

Lemma truthy_Some (v : option Z) :
  truthy v = true -> exists h, v = Some h /\ h <> 0.
Proof.
  destruct v as [h|]; cbn; [|discriminate].
  destruct (Z.eqb_spec h 0); [discriminate|]. eauto.
Qed.

Lemma classified_lookup h clsid description c inf :
  objects c !! h = Some inf ->
  objects (classified h clsid description c) !! h
  = Some {| info_size := info_size inf; info_sha256 := info_sha256 inf;
            info_class_id := Some clsid; info_description := Some description |}.
Proof.
  intros H. cbn. rewrite !lookup_alter_eq, H. reflexivity.
Qed.

Lemma classified_lookup_ne h k clsid description c :
  k <> h ->
  objects (classified h clsid description c) !! k = objects c !! k.
Proof.
  intros H. cbn. rewrite !lookup_alter_ne by congruence. reflexivity.
Qed.

End GuidConversion.

(** ** When a remote read fails *)

Lemma data_conversion_fails proc ra lpolestream pstg ptd e rs s :
  extraction_fails proc lpolestream e rs ->
  _hook_data_conversion proc ra lpolestream pstg ptd s
  = (with_reads (reads s ++ rs) s, Raise e).
Proof.
  intros Hfail. unfold _hook_data_conversion.
  destruct Hfail as [H1 | f H1 H2 | f a H1 H2 H3 | f a n H1 H2 H3 H4].
  - rewrite H1. erewrite bind_Raise by apply mem_Raise. reflexivity.
  - rewrite H1. erewrite bind_Ok by apply mem_Ok.
    rewrite H2. erewrite bind_Raise by apply mem_Raise.
    run. rewrite <- app_assoc. reflexivity.
  - rewrite H1. erewrite bind_Ok by apply mem_Ok.
    rewrite H2. erewrite bind_Ok by apply mem_Ok.
    rewrite H3. erewrite bind_Raise by apply mem_Raise.
    run. rewrite <- !app_assoc. reflexivity.
  - rewrite H1. erewrite bind_Ok by apply mem_Ok.
    rewrite H2. erewrite bind_Ok by apply mem_Ok.
    rewrite H3. erewrite bind_Ok by apply mem_Ok.
    rewrite H4. erewrite bind_Raise by apply mem_Raise.
    run. rewrite <- !app_assoc. reflexivity.
Qed.

(** Either every read of the hook succeeds or one of them fails. *)
Lemma extraction_cases proc lpolestream :
  (exists field data_addr size data,
      peek_pointer proc (lpolestream + 8) = Ok field
      /\ peek_pointer proc field = Ok data_addr
      /\ peek_dword proc (lpolestream + 12) = Ok size
      /\ read proc data_addr size = Ok data)
  \/ (exists e rs, extraction_fails proc lpolestream e rs).
Proof.
  destruct (peek_pointer proc (lpolestream + 8)) as [field|e] eqn:H1;
    [|right; eauto using extraction_fails].
  destruct (peek_pointer proc field) as [data_addr|e] eqn:H2;
    [|right; eauto using extraction_fails].
  destruct (peek_dword proc (lpolestream + 12)) as [size|e] eqn:H3;
    [|right; eauto using extraction_fails].
  destruct (read proc data_addr size) as [data|e] eqn:H4;
    [|right; eauto using extraction_fails].
  left. eauto 10.
Qed.

(** What [dispatch] does on reaching a hooked address. *)
Lemma dispatch_hooked bytes_to_clsid KNOWN_CLSIDS callback_policy
    pid proc address ra params h s :
  hook_at pid address (breakpoints s) = Some h ->
  dispatch bytes_to_clsid KNOWN_CLSIDS callback_policy
    (BreakpointEvent pid proc address ra params) s
  = under_policy callback_policy
      (call_method bytes_to_clsid KNOWN_CLSIDS (hk_callback h) proc ra
         (firstn (hk_arity h) params))
      (with_calls (calls s ++ [Dispatch]) s).
Proof.
  intros Hh. unfold dispatch. run. rewrite Hh. reflexivity.
Qed.

(** C4, amended. When a remote read of a data-conversion call fails, the
    hook does not handle the failure: the read's exception leaves the hook.
    No file is written, no tracked object is created or changed, nothing is
    logged, and the handler is as it was before the call.  Whether the
    exception also leaves [dispatch] is decided by the debugger's
    dispatcher; either way the handler, the files and the log are as
    before. *)
Theorem failed_read_leaves_the_hook
    (bytes_to_clsid : list byte -> string) (KNOWN_CLSIDS : gmap string string)
    (callback_policy : exn -> option exn)
    (proc : process) (ra lpolestream pstg ptd : Z) (e : exn)
    (rs : list mem_read) (s : state) :
  extraction_fails proc lpolestream e rs ->
  (exists s',
      _hook_data_conversion proc ra lpolestream pstg ptd s = (s', Raise e)
      /\ files s' = files s /\ self s' = self s /\ logged s' = logged s
      /\ reads s' = reads s ++ rs)
  /\ (forall pid address h rest,
         hook_at pid address (breakpoints s) = Some h ->
         hk_callback h = hook_data_conversion ->
         hk_arity h = 3%nat ->
         exists s'',
           dispatch bytes_to_clsid KNOWN_CLSIDS callback_policy
             (BreakpointEvent pid proc address ra (lpolestream :: pstg :: ptd :: rest)) s
           = (s'', match callback_policy e with
                   | Some e' => Raise e'
                   | None => Ok tt
                   end)
           /\ files s'' = files s /\ self s'' = self s /\ logged s'' = logged s).
Proof.
  intros Hfail. split.
  - eexists. split; [apply data_conversion_fails; eassumption|].
    cbn. auto.
  - intros pid address h rest Hh Hcb Har.
    rewrite (dispatch_hooked _ _ _ _ _ _ _ _ h) by assumption.
    rewrite Hcb, Har. cbn [firstn call_method]. rewrite firstn_O.
    unfold under_policy, attempt, bind.
    rewrite (data_conversion_fails _ _ _ _ _ e rs) by assumption.
    destruct (callback_policy e); eexists; (split; [reflexivity|cbn; auto]).
Qed.

Lemma failed_read_leaves_the_hook_witness :
  extraction_fails (Sim.proc Sim.torn_memory) 0x1000
    (WindowsError Sim.ERROR_PARTIAL_COPY)
    [PeekPointer (0x1000 + 8); PeekPointer 0x2000; PeekDword (0x1000 + 12); Read 0x3000 42]
  /\ exists s',
      _hook_data_conversion (Sim.proc Sim.torn_memory) 0 0x1000 0x99 0 Sim.idle
      = (s', Raise (WindowsError Sim.ERROR_PARTIAL_COPY))
      /\ files s' = files Sim.idle /\ self s' = self Sim.idle
      /\ logged s' = logged Sim.idle
      /\ reads s' = reads Sim.idle
                    ++ [PeekPointer (0x1000 + 8); PeekPointer 0x2000;
                        PeekDword (0x1000 + 12); Read 0x3000 42].
Proof.
  assert (Hfail : extraction_fails (Sim.proc Sim.torn_memory) 0x1000
            (WindowsError Sim.ERROR_PARTIAL_COPY)
            [PeekPointer (0x1000 + 8); PeekPointer 0x2000; PeekDword (0x1000 + 12);
             Read 0x3000 42])
    by (apply (fails_at_data _ _ _ 0x2000 0x3000 42); vm_compute; reflexivity).
  split; [exact Hfail|].
  exact (proj1 (failed_read_leaves_the_hook Sim.clsid_text Sim.known Sim.passing
                  (Sim.proc Sim.torn_memory) 0 0x1000 0x99 0 _ _ Sim.idle Hfail)).
Defined.

(** C4 as the specification states it fails: with the data address
    unmapped the hook ends by raising the read's error. *)
Lemma failed_read_is_not_absorbed :
  snd (_hook_data_conversion (Sim.proc Sim.torn_memory) 0 0x1000 0x99 0 Sim.idle)
  = Raise (WindowsError Sim.ERROR_PARTIAL_COPY).
Proof. vm_compute. reflexivity. Qed.

(** ** The flag [save_objs] *)

(** C3. The specification has the flag decide whether extracted objects
    are written to disk; [office_debugger] accepts [save_objs] and never
    reads it.  The outcome of a run is the same for both values of the
    flag, and a run with the flag off in which one data-conversion call is
    observed leaves the object's file on disk. *)
Theorem save_objs_is_never_read :
  (forall bytes_to_clsid KNOWN_CLSIDS callback_policy executable target_file timeout env s,
      office_debugger bytes_to_clsid KNOWN_CLSIDS callback_policy
        executable target_file timeout false env s
      = office_debugger bytes_to_clsid KNOWN_CLSIDS callback_policy
          executable target_file timeout true env s)
  /\ (exists s',
         office_debugger Sim.clsid_text Sim.known Sim.passing
           "WINWORD.EXE" "sample.rtf" 10 false Sim.quiet_session Sim.idle
         = Some (s', Ok PyNone)
         /\ files Sim.idle !! SHA256.hexdigest Sim.payload = None
         /\ files s' !! SHA256.hexdigest Sim.payload = Some Sim.payload).
Proof.
  split; [reflexivity|].
  eexists. split; [vm_compute; reflexivity|].
  split; vm_compute; reflexivity.
Qed.

(** ** The Load Correlator *)

Section Correlator.

Variable bytes_to_clsid : list byte -> string.
Variable KNOWN_CLSIDS : gmap string string.

Lemma last_loaded_cases cs :
  (forall b b', last_loaded cs b = last_loaded cs b')
  \/ (forall b, last_loaded cs b = b).
Proof.
  induction cs as [|c cs IH]; [right; reflexivity|].
  destruct c; cbn [last_loaded]; [left; reflexivity| |];
    (destruct IH as [IH|IH]; [left; intros; apply IH | right; intros; apply IH]).
Qed.

Lemma data_conversion_slot proc ra lpolestream pstg ptd s :
  _last_pstg (self (fst (_hook_data_conversion proc ra lpolestream pstg ptd s)))
  = _last_pstg (self s).
Proof.
  destruct (extraction_cases proc lpolestream)
    as [(field & data_addr & size & data & H1 & H2 & H3 & H4) | (e & rs & Hfail)].
  - rewrite (data_conversion_succeeds _ _ _ _ _ field data_addr size data)
      by assumption.
    reflexivity.
  - rewrite (data_conversion_fails _ _ _ _ _ e rs) by assumption. reflexivity.
Qed.

Lemma guid_conversion_slot proc ra clsid_old pclsid_new s :
  let s' := fst (_hook_guid_conversion bytes_to_clsid KNOWN_CLSIDS
                   proc ra clsid_old pclsid_new s) in
  _last_pstg (self s') = _last_pstg (self s) \/ _last_pstg (self s') = None.
Proof.
  cbv zeta.
  destruct (read proc clsid_old 16) as [bs|e] eqn:Hread;
    [|erewrite guid_read_fails by eassumption; left; reflexivity].
  destruct (truthy (_last_pstg (self s))) eqn:Htruthy;
    [|erewrite guid_idle by eassumption; left; reflexivity].
  destruct (truthy_Some _ Htruthy) as (h & Hlast & Hh).
  destruct (objects (self s) !! h) as [inf|] eqn:Hobj;
    [|erewrite guid_untracked by eassumption; left; reflexivity].
  destruct (KNOWN_CLSIDS !! bytes_to_clsid bs) eqn:Hknown.
  - erewrite guid_known by eassumption. right. reflexivity.
  - erewrite guid_unknown by eassumption. right. reflexivity.
Qed.

(** Whatever the calls, the slot is empty or holds the handle of the
    latest [OleLoad]. *)
Lemma slot_after_calls cs s :
  _last_pstg (self (after_calls bytes_to_clsid KNOWN_CLSIDS cs s)) = None
  \/ _last_pstg (self (after_calls bytes_to_clsid KNOWN_CLSIDS cs s))
     = last_loaded cs (_last_pstg (self s)).
Proof.
  revert s. induction cs as [|c cs IH]; intros s; [right; reflexivity|].
  unfold after_calls in *. cbn [fold_left].
  destruct c as [ra pstg riid pcs ppv | proc ra l pstg ptd | proc ra c p].
  - specialize (IH (fst (handle bytes_to_clsid KNOWN_CLSIDS (OleLoad ra pstg riid pcs ppv) s))).
    exact IH.
  - specialize (IH (fst (handle bytes_to_clsid KNOWN_CLSIDS
                           (OleConvertOLESTREAMToIStorage proc ra l pstg ptd) s))).
    cbn [handle last_loaded] in *. rewrite data_conversion_slot in IH. exact IH.
  - specialize (IH (fst (handle bytes_to_clsid KNOWN_CLSIDS (OleGetAutoConvert proc ra c p) s))).
    cbn [handle last_loaded] in *.
    destruct (guid_conversion_slot proc ra c p s) as [Hsame | Hnone].
    + rewrite Hsame in IH. exact IH.
    + rewrite Hnone in IH. destruct IH as [IH|IH]; [left; exact IH|].
      destruct (last_loaded_cases cs) as [Hany | Hid].
      * right. rewrite IH. apply Hany.
      * left. rewrite IH. apply Hid.
Qed.

End Correlator.

(** C5. The pending slot is one optional handle.  Every object-load call
    sets it to its storage-handle argument, whatever it held; a
    guid-conversion call that finds a handle pending and completes leaves
    it empty; a guid-conversion call never puts a handle into it and a
    data-conversion call never changes it; so after any sequence of calls
    on a new handler the slot is empty or holds the handle of the latest
    object-load call, and no other. *)
Theorem pending_slot_holds_at_most_the_latest_load
    (bytes_to_clsid : list byte -> string) (KNOWN_CLSIDS : gmap string string) :
  (forall ra pstg riid pclientsite ppvobj s,
      _hook_load ra pstg riid pclientsite ppvobj s
      = (with_self {| _last_pstg := Some pstg; objects := objects (self s) |} s, Ok tt))
  /\ (forall proc ra clsid_old pclsid_new s s',
         truthy (_last_pstg (self s)) = true ->
         _hook_guid_conversion bytes_to_clsid KNOWN_CLSIDS proc ra clsid_old pclsid_new s
         = (s', Ok tt) ->
         _last_pstg (self s') = None)
  /\ (forall proc ra clsid_old pclsid_new s,
         let s' := fst (_hook_guid_conversion bytes_to_clsid KNOWN_CLSIDS
                          proc ra clsid_old pclsid_new s) in
         _last_pstg (self s') = _last_pstg (self s) \/ _last_pstg (self s') = None)
  /\ (forall proc ra lpolestream pstg ptd s,
         _last_pstg (self (fst (_hook_data_conversion proc ra lpolestream pstg ptd s)))
         = _last_pstg (self s))
  /\ (forall cs s,
         _last_pstg (self s) = None ->
         let slot := _last_pstg (self (after_calls bytes_to_clsid KNOWN_CLSIDS cs s)) in
         slot = None \/ slot = last_loaded cs None).
Proof.
  split; [reflexivity|].
  split.
  { intros proc ra c p s s' Htruthy Hrun.
    destruct (truthy_Some _ Htruthy) as (h & Hlast & Hh).
    destruct (read proc c 16) as [bs|e] eqn:Hread;
      [|erewrite guid_read_fails in Hrun by eassumption; discriminate].
    destruct (objects (self s) !! h) as [inf|] eqn:Hobj;
      [|erewrite guid_untracked in Hrun by eassumption; discriminate].
    destruct (KNOWN_CLSIDS !! bytes_to_clsid bs) eqn:Hknown.
    - erewrite guid_known in Hrun by eassumption.
      injection Hrun as <-. reflexivity.
    - erewrite guid_unknown in Hrun by eassumption.
      injection Hrun as <-. reflexivity. }
  split; [apply guid_conversion_slot|].
  split; [apply data_conversion_slot|].
  intros cs s Hnone. cbv zeta.
  destruct (slot_after_calls bytes_to_clsid KNOWN_CLSIDS cs s) as [H|H];
    [left; exact H | right; rewrite H, Hnone; reflexivity].
Qed.

Lemma pending_slot_witness :
  truthy (_last_pstg (self Sim.pending)) = true
  /\ _last_pstg (self (fst (_hook_guid_conversion Sim.clsid_text Sim.known
                              (Sim.proc Sim.memory) 0 0x4000 0 Sim.pending)))
     = None.
Proof.
  split; [vm_compute; reflexivity|].
  apply (proj1 (proj2 (pending_slot_holds_at_most_the_latest_load Sim.clsid_text Sim.known))
           (Sim.proc Sim.memory) 0 0x4000 0 Sim.pending);
    vm_compute; reflexivity.
Defined.

(** ** The Classifier *)

(** C6, amended. For a guid-conversion call that finds a handle pending
    and its tracked object present: when the identifier is in the table,
    the object's description becomes the table's value and two records are
    logged at WARNING level, the first with the identifier and the
    description, the second with the tracked size and digest; when it is
    not, the description becomes "Unknown (not blacklisted)" and one record
    with the identifier is logged, at WARNING level as well.  Either way
    the object receives the identifier and nothing stays pending. *)
Theorem classification_outcomes
    (bytes_to_clsid : list byte -> string) (KNOWN_CLSIDS : gmap string string)
    (proc : process) (ra clsid_old pclsid_new : Z) (s : state)
    (bs : list byte) (h : Z) (inf : info) :
  read proc clsid_old 16 = Ok bs ->
  _last_pstg (self s) = Some h -> h <> 0 ->
  objects (self s) !! h = Some inf ->
  exists s',
    _hook_guid_conversion bytes_to_clsid KNOWN_CLSIDS proc ra clsid_old pclsid_new s
    = (s', Ok tt)
    /\ _last_pstg (self s') = None
    /\ (forall known,
           KNOWN_CLSIDS !! bytes_to_clsid bs = Some known ->
           objects (self s') !! h
           = Some {| info_size := info_size inf; info_sha256 := info_sha256 inf;
                     info_class_id := Some (bytes_to_clsid bs);
                     info_description := Some known |}
           /\ logged s'
              = logged s ++
                [ {| levelname := WARNING;
                     msg := "Suspicious OLE object loaded, class id %s (%s)";
                     args := [AStr (bytes_to_clsid bs); AStr known] |};
                  {| levelname := WARNING;
                     msg := "Object size is %d, SHA256 is %s";
                     args := [AInt (info_size inf); AStr (info_sha256 inf)] |} ])
    /\ (KNOWN_CLSIDS !! bytes_to_clsid bs = None ->
        objects (self s') !! h
        = Some {| info_size := info_size inf; info_sha256 := info_sha256 inf;
                  info_class_id := Some (bytes_to_clsid bs);
                  info_description := Some "Unknown (not blacklisted)" |}
        /\ logged s'
           = logged s ++
             [ {| levelname := WARNING;
                  msg := "Object found but not on blacklist %s";
                  args := [AStr (bytes_to_clsid bs)] |} ]).
Proof.
  intros Hread Hlast Hh Hobj.
  destruct (KNOWN_CLSIDS !! bytes_to_clsid bs) as [known|] eqn:Hknown.
  - eexists. split; [eapply guid_known; eassumption|].
    split; [reflexivity|]. split; [|discriminate].
    intros k [= <-]. split; [|reflexivity].
    cbn [self with_self]. apply classified_lookup. exact Hobj.
  - eexists. split; [eapply guid_unknown; eassumption|].
    split; [reflexivity|]. split; [discriminate|].
    intros _. split; [|reflexivity].
    cbn [self with_self]. apply classified_lookup. exact Hobj.
Qed.

Lemma classification_outcomes_witness :
  exists s',
    _hook_guid_conversion Sim.clsid_text Sim.known (Sim.proc Sim.memory) 0 0x4000 0
      Sim.pending
    = (s', Ok tt)
    /\ _last_pstg (self s') = None
    /\ (exists i, objects (self s') !! 0x99 = Some i
                  /\ info_description i = Some "OLE Package Object").
Proof.
  destruct (classification_outcomes Sim.clsid_text Sim.known (Sim.proc Sim.memory)
              0 0x4000 0 Sim.pending Sim.package_clsid 0x99
              {| info_size := 42; info_sha256 := SHA256.hexdigest Sim.payload;
                 info_class_id := None; info_description := None |})
    as (s' & Hrun & Hslot & Hknown & _).
  - vm_compute. reflexivity.
  - vm_compute. reflexivity.
  - lia.
  - vm_compute. reflexivity.
  - exists s'. split; [exact Hrun|]. split; [exact Hslot|].
    destruct (Hknown "OLE Package Object") as [Hobj _]; [vm_compute; reflexivity|].
    eexists. split; [exact Hobj|]. reflexivity.
Defined.

(** C6 as the specification states it fails on the severity: the record
    for an identifier absent from the table is logged at the level of the
    records for one that is present. *)
Lemma unknown_is_logged_at_the_level_of_known :
  map levelname
    (skipn (length (logged Sim.pending))
       (logged (fst (_hook_guid_conversion Sim.clsid_text Sim.known
                       (Sim.proc Sim.memory) 0 0x4000 0 Sim.pending))))
  = [WARNING; WARNING]
  /\ map levelname
       (skipn (length (logged Sim.pending))
          (logged (fst (_hook_guid_conversion Sim.clsid_text Sim.known
                          (Sim.proc Sim.memory) 0 0x5000 0 Sim.pending))))
     = [WARNING]
  /\ (levelno WARNING <? levelno WARNING) = false.
Proof. repeat split; vm_compute; reflexivity. Qed.

(** C7, amended. For a guid-conversion call that finds a handle pending
    and reads the identifier: when a tracked object is keyed by the pending
    handle the call completes and the object receives the identifier; when
    none is, the subscript [self.objects[self._last_pstg]] raises
    [KeyError], nothing is logged or written, and the handler is as before,
    the handle still pending. *)
Theorem guid_conversion_requires_tracked_object
    (bytes_to_clsid : list byte -> string) (KNOWN_CLSIDS : gmap string string)
    (proc : process) (ra clsid_old pclsid_new : Z) (s : state)
    (bs : list byte) (h : Z) :
  read proc clsid_old 16 = Ok bs ->
  _last_pstg (self s) = Some h -> h <> 0 ->
  (forall inf,
      objects (self s) !! h = Some inf ->
      exists s' inf',
        _hook_guid_conversion bytes_to_clsid KNOWN_CLSIDS proc ra clsid_old pclsid_new s
        = (s', Ok tt)
        /\ objects (self s') !! h = Some inf'
        /\ info_class_id inf' = Some (bytes_to_clsid bs)
        /\ info_size inf' = info_size inf /\ info_sha256 inf' = info_sha256 inf)
  /\ (objects (self s) !! h = None ->
      exists s',
        _hook_guid_conversion bytes_to_clsid KNOWN_CLSIDS proc ra clsid_old pclsid_new s
        = (s', Raise (KeyError h))
        /\ self s' = self s /\ logged s' = logged s /\ files s' = files s).
Proof.
  intros Hread Hlast Hh. split.
  - intros inf Hobj.
    destruct (KNOWN_CLSIDS !! bytes_to_clsid bs) as [known|] eqn:Hknown.
    + do 2 eexists. split; [eapply guid_known; eassumption|].
      split; [cbn [self with_self]; apply classified_lookup; exact Hobj|].
      cbn. auto.
    + do 2 eexists. split; [eapply guid_unknown; eassumption|].
      split; [cbn [self with_self]; apply classified_lookup; exact Hobj|].
      cbn. auto.
  - intros Hnone. eexists. split; [eapply guid_untracked; eassumption|].
    cbn. auto.
Qed.

Lemma guid_conversion_requires_tracked_object_witness :
  exists s',
    _hook_guid_conversion Sim.clsid_text Sim.known (Sim.proc Sim.memory) 0 0x4000 0
      Sim.pending_untracked
    = (s', Raise (KeyError 0x99))
    /\ self s' = self Sim.pending_untracked
    /\ logged s' = logged Sim.pending_untracked
    /\ files s' = files Sim.pending_untracked.
Proof.
  apply (guid_conversion_requires_tracked_object Sim.clsid_text Sim.known
           (Sim.proc Sim.memory) 0 0x4000 0 Sim.pending_untracked Sim.package_clsid 0x99).
  - vm_compute. reflexivity.
  - vm_compute. reflexivity.
  - lia.
  - vm_compute. reflexivity.
Defined.

(** C7 as the specification states it fails: with the handle 0x99 pending
    and no tracked object keyed by it, the call raises. *)
Lemma guid_conversion_without_object_raises :
  objects (self Sim.pending_untracked) !! 0x99 = None
  /\ _last_pstg (self Sim.pending_untracked) = Some 0x99
  /\ snd (_hook_guid_conversion Sim.clsid_text Sim.known (Sim.proc Sim.memory) 0 0x4000 0
            Sim.pending_untracked)
     = Raise (KeyError 0x99).
Proof. repeat split; vm_compute; reflexivity. Qed.

(** C8, amended. A guid-conversion call observed while no handle is pending
    changes nothing but the record of the memory request it makes: the slot
    stays as it is, no tracked object is created or changed, no file is
    written, and no log record is emitted, not even a diagnostic one.  The
    call returns when the read of the identifier succeeds and raises the
    read's exception when it fails. *)
Theorem idle_guid_conversion_is_silent
    (bytes_to_clsid : list byte -> string) (KNOWN_CLSIDS : gmap string string)
    (proc : process) (ra clsid_old pclsid_new : Z) (s : state) :
  truthy (_last_pstg (self s)) = false ->
  exists s',
    _hook_guid_conversion bytes_to_clsid KNOWN_CLSIDS proc ra clsid_old pclsid_new s
    = (s', match read proc clsid_old 16 with
           | Ok _ => Ok tt
           | Raise e => Raise e
           end)
    /\ self s' = self s
    /\ logged s' = logged s
    /\ files s' = files s
    /\ breakpoints s' = breakpoints s
    /\ reads s' = reads s ++ [Read clsid_old 16].
Proof.
  intros Hidle. exists (asked clsid_old s).
  split; [|cbn; auto 10].
  destruct (read proc clsid_old 16) as [bs|e] eqn:Hread.
  - eapply guid_idle; eassumption.
  - apply guid_read_fails. exact Hread.
Qed.

Lemma idle_guid_conversion_is_silent_witness :
  truthy (_last_pstg (self Sim.idle)) = false
  /\ exists s',
      _hook_guid_conversion Sim.clsid_text Sim.known (Sim.proc Sim.memory) 0 0x4000 0
        Sim.idle
      = (s', match read (Sim.proc Sim.memory) 0x4000 16 with
             | Ok _ => Ok tt
             | Raise e => Raise e
             end)
      /\ self s' = self Sim.idle
      /\ logged s' = logged Sim.idle
      /\ files s' = files Sim.idle
      /\ breakpoints s' = breakpoints Sim.idle
      /\ reads s' = reads Sim.idle ++ [Read 0x4000 16].
Proof.
  split; [reflexivity|].
  apply (idle_guid_conversion_is_silent Sim.clsid_text Sim.known (Sim.proc Sim.memory)
           0 0x4000 0 Sim.idle).
  reflexivity.
Defined.

(** C8 as the specification states it fails on the diagnostic note: the
    call made while idle returns and the log is as empty as before. *)
Lemma idle_guid_conversion_logs_nothing :
  snd (_hook_guid_conversion Sim.clsid_text Sim.known (Sim.proc Sim.memory) 0 0x4000 0
         Sim.idle)
  = Ok tt
  /\ logged Sim.idle = []
  /\ logged (fst (_hook_guid_conversion Sim.clsid_text Sim.known (Sim.proc Sim.memory)
                    0 0x4000 0 Sim.idle))
     = [].
Proof. repeat split; vm_compute; reflexivity. Qed.

(** ** The Hook Registry *)

Lemma with_nothing_new s :
  with_breakpoints (breakpoints s ++ []) (with_logged (logged s ++ []) s) = s.
Proof. destruct s. cbn. rewrite !app_nil_r. reflexivity. Qed.

Lemma apply_hooks_step pid m fo e rest s :
  hooked pid m fo = Some e ->
  _apply_hooks pid m (fo :: rest) s = _apply_hooks pid m rest (installing [e] s).
Proof.
  destruct fo as [func options]. unfold hooked. cbn [fst snd _apply_hooks].
  unfold getattr.
  destruct (resolve m func) as [address|]; [|discriminate].
  destruct (method_named (opt_hook options)) as [callback|]; [|discriminate].
  destruct (Z.eqb_spec address 0) as [|Hne]; [discriminate|].
  intros [= <-]. cbn [truthy]. destruct (Z.eqb_spec address 0); [contradiction|].
  unfold hook_function. run. reflexivity.
Qed.

Lemma apply_hooks_prefix pid m pre es rest s :
  mapM (hooked pid m) pre = Some es ->
  _apply_hooks pid m (pre ++ rest) s = _apply_hooks pid m rest (installing es s).
Proof.
  revert es s. induction pre as [|fo pre IH]; intros es s Hes.
  - cbn in Hes. injection Hes as <-. unfold installing. cbn [map app].
    rewrite with_nothing_new. reflexivity.
  - cbn in Hes. destruct (hooked pid m fo) as [e|] eqn:He; [|discriminate].
    cbn in Hes. destruct (mapM (hooked pid m) pre) as [es'|] eqn:Hpre; [|discriminate].
    cbn in Hes. injection Hes as <-.
    cbn [app]. rewrite (apply_hooks_step _ _ _ e) by exact He.
    rewrite (IH es') by reflexivity.
    f_equal. unfold installing. cbn. rewrite <- !app_assoc. reflexivity.
Qed.

Lemma apply_hooks_unresolved pid m func options post s :
  truthy (resolve m func) = false ->
  _apply_hooks pid m ((func, options) :: post) s
  = (with_logged (logged s ++ [error_record func]) s, Ok false).
Proof.
  intros H. cbn [_apply_hooks]. rewrite H. reflexivity.
Qed.

(** With every hook name a method of the handler, [_apply_hooks] returns. *)
Lemma apply_hooks_returns pid m hooks s :
  Forall (fun fo => is_Some (method_named (opt_hook (snd fo)))) hooks ->
  exists s' ok, _apply_hooks pid m hooks s = (s', Ok ok).
Proof.
  intros Hnames. revert s. induction Hnames as [|[func options] hooks [c Hc] _ IH]; intros s.
  - do 2 eexists. reflexivity.
  - cbn [_apply_hooks]. destruct (truthy (resolve m func)).
    + unfold getattr. cbn [snd] in Hc. rewrite Hc. unfold hook_function. run. apply IH.
    + do 2 eexists. reflexivity.
Qed.

Lemma load_dll_over_returns table pid m s :
  Forall (fun entry =>
            Forall (fun fo => is_Some (method_named (opt_hook (snd fo)))) (snd entry))
         table ->
  exists s', load_dll_over table pid m s = (s', Ok tt).
Proof.
  intros Htable. revert s.
  induction Htable as [|[dll hooks] table Hhooks _ IH]; intros s.
  - eexists. reflexivity.
  - cbn [load_dll_over]. destruct (match_name m dll).
    + cbn [snd] in Hhooks.
      destruct (apply_hooks_returns pid m hooks
                  (with_logged
                     (logged s ++
                        [{| levelname := DEBUG;
                            msg := "Process loaded %s, hooks exist for this module";
                            args := [AStr (get_name m)] |}]) s) Hhooks)
        as (s1 & ok & Hrun).
      run. rewrite Hrun. apply IH.
    + run. apply IH.
Qed.

Lemma load_dll_returns pid m s : exists s', load_dll pid m s = (s', Ok tt).
Proof.
  apply load_dll_over_returns.
  repeat constructor; eexists; reflexivity.
Qed.

(** ** What the session's calls on the debugger are *)

Lemma keeps_bind {A B} (c : M A) (k : A -> M B) :
  keeps_calls c -> (forall a, keeps_calls (k a)) -> keeps_calls (bind c k).
Proof.
  intros Hc Hk s. unfold bind. specialize (Hc s).
  destruct (c s) as [s1 [a|e]]; cbn in *; [rewrite Hk|]; exact Hc.
Qed.

Lemma keeps_ret {A} (a : A) : keeps_calls (ret a).
Proof. intros s. reflexivity. Qed.

Lemma keeps_raise {A} (e : exn) : keeps_calls (@raise A e).
Proof. intros s. reflexivity. Qed.

Lemma keeps_lift {A} (r : result A) : keeps_calls (lift r).
Proof. intros s. reflexivity. Qed.

Lemma keeps_gets {A} (f : state -> A) : keeps_calls (gets f).
Proof. intros s. reflexivity. Qed.

Lemma keeps_log l m a : keeps_calls (log l m a).
Proof. intros s. reflexivity. Qed.

Lemma keeps_mem {A} what (r : result A) : keeps_calls (mem what r).
Proof. intros s. unfold mem. run. destruct r; reflexivity. Qed.

Lemma keeps_write_file name data : keeps_calls (write_file name data).
Proof. intros s. reflexivity. Qed.

Lemma keeps_set_last_pstg v : keeps_calls (set_last_pstg v).
Proof. intros s. reflexivity. Qed.

Lemma keeps_set_objects f : keeps_calls (set_objects f).
Proof. intros s. reflexivity. Qed.

Lemma keeps_hook_function pid address callback signature :
  keeps_calls (hook_function pid address callback signature).
Proof. intros s. reflexivity. Qed.

Lemma keeps_attempt {A} (c : M A) : keeps_calls c -> keeps_calls (attempt c).
Proof.
  intros Hc s. unfold attempt. specialize (Hc s). destruct (c s). exact Hc.
Qed.

(** Decomposes a computation along its binds and its case distinctions. *)
Ltac keeps :=
  repeat first
    [ assumption
    | apply keeps_ret | apply keeps_raise | apply keeps_lift | apply keeps_gets
    | apply keeps_log | apply keeps_mem | apply keeps_write_file
    | apply keeps_set_last_pstg | apply keeps_set_objects | apply keeps_hook_function
    | apply keeps_attempt
    | apply keeps_bind; [|intros ?]
    | match goal with
      | |- keeps_calls (if ?b then _ else _) => destruct b
      | |- keeps_calls (match ?x with _ => _ end) => destruct x
      end ].

Lemma keeps_hook_load ra pstg riid pclientsite ppvobj :
  keeps_calls (_hook_load ra pstg riid pclientsite ppvobj).
Proof. unfold _hook_load. keeps. Qed.

Lemma keeps_hook_data_conversion proc ra lpolestream pstg ptd :
  keeps_calls (_hook_data_conversion proc ra lpolestream pstg ptd).
Proof. unfold _hook_data_conversion. keeps. Qed.

Lemma keeps_hook_guid_conversion bytes_to_clsid KNOWN_CLSIDS proc ra clsid_old pclsid_new :
  keeps_calls (_hook_guid_conversion bytes_to_clsid KNOWN_CLSIDS
                 proc ra clsid_old pclsid_new).
Proof. unfold _hook_guid_conversion, objects_getitem. keeps. Qed.

Lemma keeps_apply_hooks pid m hooks : keeps_calls (_apply_hooks pid m hooks).
Proof.
  induction hooks as [|[func options] hooks IH]; cbn [_apply_hooks]; unfold getattr; keeps.
Qed.

Lemma keeps_load_dll_over table pid m : keeps_calls (load_dll_over table pid m).
Proof.
  induction table as [|[dll hooks] table IH]; cbn [load_dll_over]; keeps.
  apply keeps_apply_hooks.
Qed.

Section SessionCalls.

Variable bytes_to_clsid : list byte -> string.
Variable KNOWN_CLSIDS : gmap string string.
Variable callback_policy : exn -> option exn.

Local Abbreviation dispatching := (dispatch bytes_to_clsid KNOWN_CLSIDS callback_policy).
Local Abbreviation pass := (iteration bytes_to_clsid KNOWN_CLSIDS callback_policy).

Lemma keeps_call_method c proc ra params :
  keeps_calls (call_method bytes_to_clsid KNOWN_CLSIDS c proc ra params).
Proof.
  unfold call_method.
  destruct c; destruct params as [|p1 [|p2 [|p3 [|p4 [|p5 ps]]]]];
    first [ apply keeps_raise | apply keeps_hook_load
          | apply keeps_hook_data_conversion | apply keeps_hook_guid_conversion ].
Qed.

Lemma keeps_under_policy c :
  keeps_calls c -> keeps_calls (under_policy callback_policy c).
Proof. intros Hc. unfold under_policy. keeps. Qed.

(** [dispatch] makes one call on the debugger, itself. *)
Lemma dispatch_calls ev s :
  calls (fst (dispatching ev s)) = calls s ++ [Dispatch].
Proof.
  unfold dispatch.
  assert (Hrest : keeps_calls
            (match ev with
             | LoadDllEvent pid m => under_policy callback_policy (load_dll pid m)
             | BreakpointEvent pid proc address ra params =>
                 let* bps := gets breakpoints in
                 match hook_at pid address bps with
                 | Some h =>
                     under_policy callback_policy
                       (call_method bytes_to_clsid KNOWN_CLSIDS (hk_callback h) proc ra
                          (firstn (hk_arity h) params))
                 | None => ret tt
                 end
             | OtherEvent => ret tt
             end)).
  { destruct ev as [pid m | pid proc address ra params |].
    - apply keeps_under_policy, keeps_load_dll_over.
    - apply keeps_bind; [apply keeps_gets|]. intros bps.
      destruct (hook_at pid address bps).
      + apply keeps_under_policy, keeps_call_method.
      + apply keeps_ret.
    - apply keeps_ret. }
  unfold bind at 1. cbn [call modify].
  rewrite (Hrest (with_calls (calls s ++ [Dispatch]) s)). reflexivity.
Qed.

(** A pass in which an event is delivered: the event is dispatched and
    the target resumed, and the pass ends as the dispatch ended. *)
Lemma iteration_delivered max_time t ev s :
  0 < debugee_count t -> clock t < max_time -> waited t = Ok ev ->
  exists s',
    pass max_time t s
    = (s', match snd (dispatching ev (waiting s)) with
           | Ok _ => Ok Continue
           | Raise e => Raise e
           end)
    /\ calls s' = calls s ++ [Wait 1000; Dispatch; Cont]
    /\ self s' = self (fst (dispatching ev (waiting s)))
    /\ files s' = files (fst (dispatching ev (waiting s)))
    /\ logged s' = logged (fst (dispatching ev (waiting s))).
Proof.
  intros Hcount Hclock Hwait.
  unfold iteration.
  destruct (Z.ltb_spec 0 (debugee_count t)); [|lia].
  destruct (Z.ltb_spec (clock t) max_time); [|lia].
  cbn [andb]. rewrite Hwait. run. fold (waiting s).
  pose proof (dispatch_calls ev (waiting s)) as Hcalls.
  destruct (dispatching ev (waiting s)) as [s1 [[]|e]]; cbn [fst snd] in *;
    (eexists; split; [reflexivity|]); cbn; rewrite Hcalls; cbn;
    rewrite <- !app_assoc; auto.
Qed.

(** A pass in which the wait times out: nothing but the wait happens. *)
Lemma iteration_timeout max_time t winerror s :
  0 < debugee_count t -> clock t < max_time ->
  waited t = Raise (WindowsError winerror) ->
  winerror = ERROR_SEM_TIMEOUT \/ winerror = WAIT_TIMEOUT ->
  pass max_time t s = (waiting s, Ok Continue).
Proof.
  intros Hcount Hclock Hwait Hcode.
  unfold iteration.
  destruct (Z.ltb_spec 0 (debugee_count t)); [|lia].
  destruct (Z.ltb_spec (clock t) max_time); [|lia].
  cbn [andb]. rewrite Hwait. run.
  destruct Hcode as [-> | ->]; reflexivity.
Qed.

(** A pass that finds no debuggee left or the deadline reached. *)
Lemma iteration_break max_time t s :
  debugee_count t <= 0 \/ max_time <= clock t ->
  pass max_time t s = (s, Ok Break).
Proof.
  intros Hend. unfold iteration.
  destruct (Z.ltb_spec 0 (debugee_count t)); [|reflexivity].
  destruct (Z.ltb_spec (clock t) max_time); [lia|reflexivity].
Qed.

(** The calls of one pass, whatever it meets. *)
Lemma iteration_calls max_time t s :
  exists tr,
    calls (fst (pass max_time t s)) = calls s ++ tr
    /\ (tr = [] \/ tr = [Wait 1000] \/ tr = [Wait 1000; Dispatch; Cont]).
Proof.
  destruct (Z.ltb_spec 0 (debugee_count t)) as [Hcount|Hcount];
    [|exists []; rewrite iteration_break by lia; cbn; rewrite app_nil_r; auto].
  destruct (Z.ltb_spec (clock t) max_time) as [Hclock|Hclock];
    [|exists []; rewrite iteration_break by lia; cbn; rewrite app_nil_r; auto].
  destruct (waited t) as [ev|e] eqn:Hwait.
  - destruct (iteration_delivered max_time t ev s Hcount Hclock Hwait)
      as (s' & -> & Hcalls & _).
    exists [Wait 1000; Dispatch; Cont]. cbn [fst]. auto.
  - exists [Wait 1000]. split; [|auto].
    unfold iteration.
    destruct (Z.ltb_spec 0 (debugee_count t)); [|lia].
    destruct (Z.ltb_spec (clock t) max_time); [|lia].
    cbn [andb]. rewrite Hwait. run.
    destruct e; try reflexivity.
    destruct ((winerror =? ERROR_SEM_TIMEOUT) || (winerror =? WAIT_TIMEOUT));
      reflexivity.
Qed.

End SessionCalls.

Lemma dispatch_load_dll bytes_to_clsid KNOWN_CLSIDS callback_policy pid m s :
  snd (dispatch bytes_to_clsid KNOWN_CLSIDS callback_policy (LoadDllEvent pid m) s) = Ok tt.
Proof.
  unfold dispatch, under_policy. run.
  destruct (load_dll_returns pid m (with_calls (calls s ++ [Dispatch]) s)) as [s' ->].
  reflexivity.
Qed.

Lemma event_loop_calls bytes_to_clsid KNOWN_CLSIDS callback_policy max_time answers :
  forall s s' r,
    event_loop bytes_to_clsid KNOWN_CLSIDS callback_policy max_time answers s = Some (s', r) ->
    exists tr, calls s' = calls s ++ tr /\ resumed_after_dispatch tr = true.
Proof.
  induction answers as [|t answers IH]; intros s s' r Hloop; [discriminate|].
  cbn [event_loop] in Hloop.
  destruct (iteration_calls bytes_to_clsid KNOWN_CLSIDS callback_policy max_time t s)
    as (tr1 & Hcalls & Htr1).
  destruct (iteration bytes_to_clsid KNOWN_CLSIDS callback_policy max_time t s)
    as [s1 [[|]|e]]; cbn [fst] in Hcalls.
  - destruct (IH _ _ _ Hloop) as (tr & Htr & Hok).
    exists (tr1 ++ tr). split; [rewrite Htr, Hcalls, app_assoc; reflexivity|].
    destruct Htr1 as [-> | [-> | ->]]; exact Hok.
  - injection Hloop as <- <-. exists tr1. split; [exact Hcalls|].
    destruct Htr1 as [-> | [-> | ->]]; reflexivity.
  - injection Hloop as <- <-. exists tr1. split; [exact Hcalls|].
    destruct Htr1 as [-> | [-> | ->]]; reflexivity.
Qed.

Lemma event_loop_app bytes_to_clsid KNOWN_CLSIDS callback_policy max_time pre more :
  forall s s1,
    passes bytes_to_clsid KNOWN_CLSIDS callback_policy max_time pre s = Some s1 ->
    event_loop bytes_to_clsid KNOWN_CLSIDS callback_policy max_time (pre ++ more) s
    = event_loop bytes_to_clsid KNOWN_CLSIDS callback_policy max_time more s1.
Proof.
  induction pre as [|t pre IH]; intros s s1 Hpre.
  - injection Hpre as <-. reflexivity.
  - cbn [passes] in Hpre. cbn [app event_loop].
    destruct (iteration bytes_to_clsid KNOWN_CLSIDS callback_policy max_time t s)
      as [s' [[|]|e]]; try discriminate.
    apply IH. exact Hpre.
Qed.

(** Timeouts up to the deadline: the loop ends normally, having done
    nothing but wait. *)
Lemma event_loop_timeouts bytes_to_clsid KNOWN_CLSIDS callback_policy max_time
    timeouts late rest :
  forallb (reports_timeout max_time) timeouts = true ->
  max_time <= clock late ->
  forall s,
  exists s',
    event_loop bytes_to_clsid KNOWN_CLSIDS callback_policy max_time
      (timeouts ++ late :: rest) s
    = Some (s', Ok tt)
    /\ self s' = self s /\ files s' = files s /\ logged s' = logged s
    /\ breakpoints s' = breakpoints s /\ reads s' = reads s
    /\ calls s' = calls s ++ repeat (Wait 1000) (length timeouts).
Proof.
  intros Htimeouts Hlate.
  induction timeouts as [|t timeouts IH]; intros s.
  - exists s. cbn [app event_loop].
    rewrite iteration_break by (right; exact Hlate).
    cbn. rewrite app_nil_r. auto 10.
  - cbn [forallb] in Htimeouts. apply andb_prop in Htimeouts as [Ht Hrest].
    unfold reports_timeout in Ht.
    apply andb_prop in Ht as [Hcond Hcode]. apply andb_prop in Hcond as [Hcount Hclock].
    apply Z.ltb_lt in Hcount, Hclock.
    destruct (waited t) as [ev|[winerror| | |]] eqn:Hwait; try discriminate.
    apply orb_prop in Hcode.
    cbn [app event_loop].
    rewrite (iteration_timeout _ _ _ _ _ winerror) by
      (try assumption; destruct Hcode as [H|H]; apply Z.eqb_eq in H; auto).
    destruct (IH Hrest (waiting s)) as (s' & Hrun & Hself & Hfiles & Hlog & Hbps & Hreads & Hcalls).
    exists s'. split; [exact Hrun|].
    cbn in *. rewrite Hcalls, <- app_assoc. auto 10.
Qed.

(** C2, amended. When a declared function fails to resolve, [_apply_hooks]
    logs an error naming it and returns [False] at once: the hooks declared
    before it are installed, the hook itself and those declared after it
    are not, and nothing is logged about the latter.  [load_dll] drops that
    result and returns, so the pass of the session loop that delivered the
    module load goes on to the next. *)
Theorem unresolved_hook_ends_installation
    (bytes_to_clsid : list byte -> string) (KNOWN_CLSIDS : gmap string string)
    (callback_policy : exn -> option exn)
    (pid : Z) (m : module) (pre post : list (string * hook_options))
    (func : string) (options : hook_options)
    (es : list (hook_entry * log_record)) (s : state) :
  mapM (hooked pid m) pre = Some es ->
  truthy (resolve m func) = false ->
  (exists s',
      _apply_hooks pid m (pre ++ (func, options) :: post) s = (s', Ok false)
      /\ breakpoints s' = breakpoints s ++ map fst es
      /\ logged s' = logged s ++ map snd es ++ [error_record func]
      /\ self s' = self s /\ files s' = files s)
  /\ (forall s0, exists s', load_dll pid m s0 = (s', Ok tt))
  /\ (forall max_time t s0,
         0 < debugee_count t -> clock t < max_time ->
         waited t = Ok (LoadDllEvent pid m) ->
         exists s',
           iteration bytes_to_clsid KNOWN_CLSIDS callback_policy max_time t s0
           = (s', Ok Continue)).
Proof.
  intros Hpre Hfunc. split; [|split].
  - eexists. split.
    + rewrite (apply_hooks_prefix _ _ _ es) by exact Hpre.
      apply apply_hooks_unresolved. exact Hfunc.
    + cbn. rewrite <- app_assoc. auto.
  - intros s0. apply load_dll_returns.
  - intros max_time t s0 Hcount Hclock Hwait.
    destruct (iteration_delivered bytes_to_clsid KNOWN_CLSIDS callback_policy
                max_time t _ s0 Hcount Hclock Hwait) as (s' & Hrun & _).
    rewrite dispatch_load_dll in Hrun. eauto.
Qed.

Lemma unresolved_hook_ends_installation_witness :
  exists s',
    _apply_hooks 7 Sim.ole32_without_convert ole32_hooks Sim.idle = (s', Ok false)
    /\ map hk_callback (breakpoints s') = [hook_load]
    /\ resolve Sim.ole32_without_convert "OleGetAutoConvert" = Some 0x7200
    /\ map levelname (logged s') = [DEBUG; ERROR].
Proof.
  destruct (unresolved_hook_ends_installation Sim.clsid_text Sim.known Sim.passing
              7 Sim.ole32_without_convert
              [("OleLoad", {| opt_args := 4; opt_hook := "_hook_load" |})]
              [("OleGetAutoConvert",
                {| opt_args := 2; opt_hook := "_hook_guid_conversion" |})]
              "OleConvertOLESTREAMToIStorage"
              {| opt_args := 3; opt_hook := "_hook_data_conversion" |}
              [({| hk_pid := 7; hk_address := 0x7000; hk_callback := hook_load;
                   hk_arity := 4 |},
                {| levelname := DEBUG; msg := "Address of %s is 0x%08x";
                   args := [AStr "OleLoad"; AInt 0x7000] |})]
              Sim.idle)
    as [(s' & Hrun & Hbps & Hlog & _) _].
  - vm_compute. reflexivity.
  - reflexivity.
  - exists s'. split; [exact Hrun|].
    rewrite Hbps, Hlog. repeat split.
Defined.

(** C2 as the specification states it fails.  Of an [ole32.dll] that
    exports [OleConvertOLESTREAMToIStorage] alone, the load installs no
    hook at all and logs one error, for [OleLoad]; and in whatever order
    the three declared hooks are gone through, some function that resolves
    is left without its hook or some function that does not is left
    without its error. *)
Lemma other_hooks_are_not_all_installed :
  breakpoints (fst (load_dll 7 Sim.partial_ole32 Sim.idle)) = []
  /\ truthy (resolve Sim.partial_ole32 "OleConvertOLESTREAMToIStorage") = true
  /\ filter (fun r => levelname r = ERROR) (logged (fst (load_dll 7 Sim.partial_ole32 Sim.idle)))
     = [error_record "OleLoad"]
  /\ forallb (fun hooks =>
                negb (all_but_unresolved_installed Sim.partial_ole32 hooks
                        (fst (_apply_hooks 7 Sim.partial_ole32 hooks Sim.idle))))
             (permutations ole32_hooks)
     = true.
Proof. repeat split; vm_compute; reflexivity. Qed.

Example full_module_is_fully_hooked :
  all_but_unresolved_installed Sim.ole32 ole32_hooks (fst (load_dll 7 Sim.ole32 Sim.idle))
  = true.
Proof. vm_compute. reflexivity. Qed.

(** ** The Session Orchestrator *)

(** C9. In every pass of the session loop in which an event is
    dispatched, [debug.cont()] is called right after [debug.dispatch()],
    whether the dispatch returned or raised; when it raised, the exception
    leaves the pass only after the target was resumed.  Hence in the calls
    of any run of the loop every [Dispatch] is followed at once by
    [Cont]. *)
Theorem target_resumed_after_every_dispatch
    (bytes_to_clsid : list byte -> string) (KNOWN_CLSIDS : gmap string string)
    (callback_policy : exn -> option exn) :
  (forall max_time t ev s,
      0 < debugee_count t -> clock t < max_time -> waited t = Ok ev ->
      exists s',
        iteration bytes_to_clsid KNOWN_CLSIDS callback_policy max_time t s
        = (s', match snd (dispatch bytes_to_clsid KNOWN_CLSIDS callback_policy ev
                            (waiting s)) with
               | Ok _ => Ok Continue
               | Raise e => Raise e
               end)
        /\ calls s' = calls s ++ [Wait 1000; Dispatch; Cont])
  /\ (forall max_time answers s s' r,
         event_loop bytes_to_clsid KNOWN_CLSIDS callback_policy max_time answers s
         = Some (s', r) ->
         exists tr, calls s' = calls s ++ tr /\ resumed_after_dispatch tr = true).
Proof.
  split.
  - intros max_time t ev s Hcount Hclock Hwait.
    destruct (iteration_delivered bytes_to_clsid KNOWN_CLSIDS callback_policy
                max_time t ev s Hcount Hclock Hwait) as (s' & Hrun & Hcalls & _).
    eauto.
  - intros max_time answers. apply event_loop_calls.
Qed.

Lemma target_resumed_after_every_dispatch_witness :
  exists s',
    iteration Sim.clsid_text Sim.known Sim.passing 10
      (Sim.delivers 1 (Sim.convert_called Sim.torn_memory)) Sim.instrumented
    = (s', Raise (WindowsError Sim.ERROR_PARTIAL_COPY))
    /\ calls s' = calls Sim.instrumented ++ [Wait 1000; Dispatch; Cont].
Proof.
  destruct (proj1 (target_resumed_after_every_dispatch Sim.clsid_text Sim.known Sim.passing)
              10 (Sim.delivers 1 (Sim.convert_called Sim.torn_memory))
              (Sim.convert_called Sim.torn_memory) Sim.instrumented)
    as (s' & Hrun & Hcalls).
  - reflexivity.
  - reflexivity.
  - reflexivity.
  - exists s'. split; [|exact Hcalls].
    rewrite Hrun. f_equal.
Defined.

(** C10, amended. When, after some passes, the debugger reports only
    timeouts until the deadline has passed, the loop ends without an
    exception, having done nothing but wait; [debug.stop()] is then called
    and the debugger left; the handler, with the objects tracked so far,
    the files and the log are as they were before the timeouts.
    [office_debugger] itself returns [None]: the tracked objects are not
    handed to the caller. *)
Theorem timeouts_end_the_session_normally
    (bytes_to_clsid : list byte -> string) (KNOWN_CLSIDS : gmap string string)
    (callback_policy : exn -> option exn)
    (executable target_file : string) (timeout : Z) (save_objs : bool)
    (env : session) (s0 s1 s2 : state)
    (prefix timeouts rest : list tick) (late : tick) :
  ticks env = prefix ++ timeouts ++ late :: rest ->
  launch [executable; target_file] (execv_outcome env)
    (with_breakpoints [] (with_self new_handler s0))
  = (s1, Ok tt) ->
  passes bytes_to_clsid KNOWN_CLSIDS callback_policy (start_time env + timeout) prefix s1
  = Some s2 ->
  forallb (reports_timeout (start_time env + timeout)) timeouts = true ->
  start_time env + timeout <= clock late ->
  exists s3,
    office_debugger bytes_to_clsid KNOWN_CLSIDS callback_policy
      executable target_file timeout save_objs env s0
    = Some (s3, Ok PyNone)
    /\ self s3 = self s2 /\ files s3 = files s2 /\ logged s3 = logged s2
    /\ calls s3 = calls s2 ++ repeat (Wait 1000) (length timeouts) ++ [Stop; ExitDebug].
Proof.
  intros Hticks Hlaunch Hprefix Htimeouts Hlate.
  destruct (event_loop_timeouts bytes_to_clsid KNOWN_CLSIDS callback_policy
              (start_time env + timeout) timeouts late rest Htimeouts Hlate s2)
    as (s' & Hloop & Hself & Hfiles & Hlog & _ & _ & Hcalls).
  eexists. split.
  - unfold office_debugger. rewrite Hlaunch, Hticks.
    rewrite (event_loop_app _ _ _ _ _ _ _ s2) by exact Hprefix.
    rewrite Hloop. reflexivity.
  - run. rewrite Hcalls, <- !app_assoc. auto.
Qed.

Lemma timeouts_end_the_session_normally_witness :
  exists s3,
    office_debugger Sim.clsid_text Sim.known Sim.passing
      "WINWORD.EXE" "sample.rtf" 10 true Sim.quiet_session Sim.idle
    = Some (s3, Ok PyNone)
    /\ objects (self s3) !! 0x99
       = Some {| info_size := 42; info_sha256 := SHA256.hexdigest Sim.payload;
                 info_class_id := None; info_description := None |}
    /\ calls s3
       = [SetKillOnExit; Execv ["WINWORD.EXE"; "sample.rtf"];
          Wait 1000; Dispatch; Cont; Wait 1000; Dispatch; Cont;
          Wait 1000; Wait 1000; Stop; ExitDebug].
Proof.
  destruct (timeouts_end_the_session_normally Sim.clsid_text Sim.known Sim.passing
              "WINWORD.EXE" "sample.rtf" 10 true Sim.quiet_session Sim.idle
              (fst (launch ["WINWORD.EXE"; "sample.rtf"] (Ok tt)
                      (with_breakpoints [] (with_self new_handler Sim.idle))))
              (default Sim.idle
                 (passes Sim.clsid_text Sim.known Sim.passing 10
                    [Sim.delivers 1 Sim.ole32_loaded;
                     Sim.delivers 2 (Sim.convert_called Sim.memory)]
                    (fst (launch ["WINWORD.EXE"; "sample.rtf"] (Ok tt)
                            (with_breakpoints [] (with_self new_handler Sim.idle))))))
              [Sim.delivers 1 Sim.ole32_loaded;
               Sim.delivers 2 (Sim.convert_called Sim.memory)]
              [Sim.times_out 4; Sim.times_out 7] [] (Sim.times_out 11))
    as (s3 & Hrun & Hself & _ & _ & Hcalls).
  - reflexivity.
  - reflexivity.
  - vm_compute. reflexivity.
  - reflexivity.
  - cbn. lia.
  - exists s3. split; [exact Hrun|].
    rewrite Hself, Hcalls. split; vm_compute; reflexivity.
Defined.

(** C10 as the specification states it fails on the partial result: in a
    run that tracks one object and then meets only timeouts,
    [office_debugger] returns [None], not the tracked objects. *)
Lemma tracked_objects_are_not_returned :
  exists s3,
    office_debugger Sim.clsid_text Sim.known Sim.passing
      "WINWORD.EXE" "sample.rtf" 10 true Sim.quiet_session Sim.idle
    = Some (s3, Ok PyNone)
    /\ size (objects (self s3)) = 1%nat
    /\ @Ok pyvalue PyNone <> Ok (PyObjects (objects (self s3))).
Proof.
  eexists. split; [vm_compute; reflexivity|].
  split; [vm_compute; reflexivity | discriminate].
Qed.

(** ** Whole runs *)

(** The simulated process honours the length it is asked for. *)
Lemma read_bytes_length memory address nbytes bs :
  Sim.read_bytes memory address nbytes = Ok bs -> length bs = Z.to_nat nbytes.
Proof.
  unfold Sim.read_bytes.
  destruct (mapM _ _) as [l|] eqn:Hl; [|discriminate].
  intros [= <-]. apply length_mapM in Hl. rewrite <- Hl. apply length_seq.
Qed.

(** When every declared function resolves, every hook is installed and
    [_apply_hooks] returns [True]. *)
Theorem resolved_hooks_are_all_installed
    (pid : Z) (m : module) (hooks : list (string * hook_options))
    (es : list (hook_entry * log_record)) (s : state) :
  mapM (hooked pid m) hooks = Some es ->
  _apply_hooks pid m hooks s = (installing es s, Ok true).
Proof.
  intros Hes. rewrite <- (app_nil_r hooks).
  rewrite (apply_hooks_prefix _ _ _ es) by exact Hes. reflexivity.
Qed.

Lemma resolved_hooks_are_all_installed_witness :
  exists s',
    _apply_hooks 7 Sim.ole32 ole32_hooks Sim.idle = (s', Ok true)
    /\ map hk_callback (breakpoints s')
       = [hook_load; hook_data_conversion; hook_guid_conversion]
    /\ map hk_arity (breakpoints s') = [4; 3; 2]%nat.
Proof.
  eexists. split.
  - apply (resolved_hooks_are_all_installed 7 Sim.ole32 ole32_hooks
             (default [] (mapM (hooked 7 Sim.ole32) ole32_hooks)) Sim.idle).
    vm_compute. reflexivity.
  - split; vm_compute; reflexivity.
Defined.

(** The three calls of one object load, in their order: the data is
    extracted under the storage handle, the handle is remembered, and the
    identifier read by the third call completes the tracked object and
    empties the slot. *)
Theorem conversion_load_classification
    (bytes_to_clsid : list byte -> string) (KNOWN_CLSIDS : gmap string string)
    (proc : process) (ra lpolestream pstg ptd riid pclientsite ppvobj clsid_old pclsid_new : Z)
    (field data_addr size : Z) (data bs : list byte) (s : state) :
  peek_pointer proc (lpolestream + 8) = Ok field ->
  peek_pointer proc field = Ok data_addr ->
  peek_dword proc (lpolestream + 12) = Ok size ->
  read proc data_addr size = Ok data ->
  read proc clsid_old 16 = Ok bs ->
  pstg <> 0 ->
  let s' := after_calls bytes_to_clsid KNOWN_CLSIDS
              [OleConvertOLESTREAMToIStorage proc ra lpolestream pstg ptd;
               OleLoad ra pstg riid pclientsite ppvobj;
               OleGetAutoConvert proc ra clsid_old pclsid_new] s in
  _last_pstg (self s') = None
  /\ objects (self s') !! pstg
     = Some {| info_size := size; info_sha256 := SHA256.hexdigest data;
               info_class_id := Some (bytes_to_clsid bs);
               info_description :=
                 Some (default "Unknown (not blacklisted)"
                         (KNOWN_CLSIDS !! bytes_to_clsid bs)) |}
  /\ files s' !! SHA256.hexdigest data = Some data.
Proof.
  intros Hfield Haddr Hsize Hdata Hread Hpstg. cbv zeta.
  unfold after_calls. cbn [fold_left handle].
  rewrite (data_conversion_succeeds _ _ _ _ _ field data_addr size data) by assumption.
  cbn [fst].
  set (s0 := extracted lpolestream pstg field data_addr size data s).
  change (fst (_hook_load ra pstg riid pclientsite ppvobj s0))
    with (with_self {| _last_pstg := Some pstg; objects := objects (self s0) |} s0).
  set (s1 := with_self _ s0).
  assert (Hobj : objects (self s1) !! pstg
                 = Some {| info_size := size; info_sha256 := SHA256.hexdigest data;
                           info_class_id := None; info_description := None |})
    by (subst s1 s0; cbn; apply lookup_insert_eq).
  assert (Hlast : _last_pstg (self s1) = Some pstg) by reflexivity.
  destruct (KNOWN_CLSIDS !! bytes_to_clsid bs) as [known|] eqn:Hknown.
  - erewrite guid_known by eassumption.
    cbn [fst self with_self with_logged files default from_option id].
    split; [reflexivity|]. split.
    + erewrite classified_lookup by exact Hobj. reflexivity.
    + subst s1 s0. cbn. apply lookup_insert_eq.
  - erewrite guid_unknown by eassumption.
    cbn [fst self with_self with_logged files default from_option id].
    split; [reflexivity|]. split.
    + erewrite classified_lookup by exact Hobj. reflexivity.
    + subst s1 s0. cbn. apply lookup_insert_eq.
Qed.

Lemma conversion_load_classification_witness :
  _last_pstg
    (self (after_calls Sim.clsid_text Sim.known
             [OleConvertOLESTREAMToIStorage (Sim.proc Sim.memory) 0 0x1000 0x99 0;
              OleLoad 0 0x99 0 0 0;
              OleGetAutoConvert (Sim.proc Sim.memory) 0 0x4000 0] Sim.idle))
  = None
  /\ objects
       (self (after_calls Sim.clsid_text Sim.known
                [OleConvertOLESTREAMToIStorage (Sim.proc Sim.memory) 0 0x1000 0x99 0;
                 OleLoad 0 0x99 0 0 0;
                 OleGetAutoConvert (Sim.proc Sim.memory) 0 0x4000 0] Sim.idle))
     !! 0x99
     = Some {| info_size := 42; info_sha256 := SHA256.hexdigest Sim.payload;
               info_class_id := Some "F20DA720-C02F-11CE-927B-0800095AE340";
               info_description := Some "OLE Package Object" |}.
Proof.
  destruct (conversion_load_classification Sim.clsid_text Sim.known (Sim.proc Sim.memory)
              0 0x1000 0x99 0 0 0 0 0x4000 0 0x2000 0x3000 42 Sim.payload
              Sim.package_clsid Sim.idle)
    as (Hslot & Hobj & _); try (vm_compute; reflexivity); [lia|].
  split; [exact Hslot|]. rewrite Hobj. vm_compute. reflexivity.
Defined.

(** A run in which the first data-conversion call meets an unmapped data
    address and a second one succeeds.  With a dispatcher that drops the
    callback's exception the run goes on and tracks the second object;
    with one that passes it on, the run ends with the exception, after the
    target was resumed and the debugger stopped. *)
Example run_after_a_failed_read :
  let env := {| start_time := 0; execv_outcome := Ok tt;
                ticks := [Sim.delivers 1 Sim.ole32_loaded;
                          Sim.delivers 2 (Sim.convert_called Sim.torn_memory);
                          Sim.delivers 3 (Sim.convert_called Sim.memory);
                          Sim.times_out 11] |} in
  (exists s',
      office_debugger Sim.clsid_text Sim.known Sim.dropping
        "WINWORD.EXE" "sample.rtf" 10 true env Sim.idle
      = Some (s', Ok PyNone)
      /\ size (objects (self s')) = 1%nat)
  /\ (exists s',
         office_debugger Sim.clsid_text Sim.known Sim.passing
           "WINWORD.EXE" "sample.rtf" 10 true env Sim.idle
         = Some (s', Raise (WindowsError Sim.ERROR_PARTIAL_COPY))
         /\ size (objects (self s')) = 0%nat
         /\ calls s'
            = [SetKillOnExit; Execv ["WINWORD.EXE"; "sample.rtf"];
               Wait 1000; Dispatch; Cont; Wait 1000; Dispatch; Cont; Stop; ExitDebug]).
Proof.
  cbv zeta. split; eexists; (split; [vm_compute; reflexivity|]);
    repeat split; vm_compute; reflexivity.
Qed.

(** The scenario of the specification run through the session: the module
    loads, the three calls of one object load arrive, the target exits. *)
Example run_of_one_object_load :
  exists s',
    office_debugger Sim.clsid_text Sim.known Sim.passing
      "WINWORD.EXE" "sample.rtf" 10 true
      {| start_time := 0; execv_outcome := Ok tt;
         ticks := [Sim.delivers 1 Sim.ole32_loaded;
                   Sim.delivers 2 (Sim.convert_called Sim.memory);
                   Sim.delivers 3 Sim.load_called;
                   Sim.delivers 4 (Sim.guid_called 0x4000);
                   {| debugee_count := 0; clock := 5; waited := Ok OtherEvent |}] |}
      Sim.idle
    = Some (s', Ok PyNone)
    /\ _last_pstg (self s') = None
    /\ objects (self s') !! 0x99
       = Some {| info_size := 42; info_sha256 := SHA256.hexdigest Sim.payload;
                 info_class_id := Some "F20DA720-C02F-11CE-927B-0800095AE340";
                 info_description := Some "OLE Package Object" |}
    /\ map levelname (logged s') = [DEBUG; DEBUG; DEBUG; DEBUG; DEBUG; WARNING; WARNING].
Proof.
  eexists. split; [vm_compute; reflexivity|].
  repeat split; vm_compute; reflexivity.
Qed.

(** * Further properties of the engine *)

(** ** The outcomes of the hooks *)

(** A data-conversion call either fails at one of its reads, leaving only
    the record of the requests, or extracts. *)
Lemma data_conversion_outcomes proc ra lpolestream pstg ptd s :
  (exists e rs,
      _hook_data_conversion proc ra lpolestream pstg ptd s
      = (with_reads (reads s ++ rs) s, Raise e))
  \/ (exists field data_addr size data,
         _hook_data_conversion proc ra lpolestream pstg ptd s
         = (extracted lpolestream pstg field data_addr size data s, Ok tt)).
Proof.
  destruct (extraction_cases proc lpolestream)
    as [(field & data_addr & size & data & H1 & H2 & H3 & H4) | (e & rs & Hfail)].
  - right. exists field, data_addr, size, data.
    apply data_conversion_succeeds; assumption.
  - left. exists e, rs. apply data_conversion_fails. exact Hfail.
Qed.

(** A guid-conversion call either leaves only the record of its request, or
    classifies the tracked object of the pending handle. *)
Lemma guid_conversion_outcomes bytes_to_clsid KNOWN_CLSIDS proc ra clsid_old pclsid_new s :
  (exists r,
      _hook_guid_conversion bytes_to_clsid KNOWN_CLSIDS proc ra clsid_old pclsid_new s
      = (asked clsid_old s, r))
  \/ (exists bs h inf description records,
         read proc clsid_old 16 = Ok bs
         /\ _last_pstg (self s) = Some h /\ h <> 0
         /\ objects (self s) !! h = Some inf
         /\ description
            = default "Unknown (not blacklisted)" (KNOWN_CLSIDS !! bytes_to_clsid bs)
         /\ _hook_guid_conversion bytes_to_clsid KNOWN_CLSIDS proc ra clsid_old pclsid_new s
            = (with_self (classified h (bytes_to_clsid bs) description (self s))
                 (with_logged (logged s ++ records) (asked clsid_old s)),
               Ok tt)).
Proof.
  destruct (read proc clsid_old 16) as [bs|e] eqn:Hread;
    [|left; eexists; apply guid_read_fails; exact Hread].
  destruct (truthy (_last_pstg (self s))) eqn:Htruthy;
    [|left; eexists; eapply guid_idle; eassumption].
  destruct (truthy_Some _ Htruthy) as (h & Hlast & Hh).
  destruct (objects (self s) !! h) as [inf|] eqn:Hobj;
    [|left; eexists; eapply guid_untracked; eassumption].
  right. exists bs, h, inf.
  destruct (KNOWN_CLSIDS !! bytes_to_clsid bs) as [known|] eqn:Hknown.
  - do 2 eexists. repeat (split; [eassumption || reflexivity|]).
    cbn [default from_option id].
    eapply guid_known; eassumption.
  - do 2 eexists. repeat (split; [eassumption || reflexivity|]).
    cbn [default from_option].
    eapply guid_unknown; eassumption.
Qed.

(** ** What a computation leaves as it is *)

Lemma unchanged_bind {X A B} (part : state -> X) (c : M A) (k : A -> M B) :
  unchanged part c -> (forall a, unchanged part (k a)) -> unchanged part (bind c k).
Proof.
  intros Hc Hk s. unfold bind. specialize (Hc s).
  destruct (c s) as [s1 [a|e]]; cbn in *; [rewrite Hk|]; exact Hc.
Qed.

Lemma unchanged_attempt {X A} (part : state -> X) (c : M A) :
  unchanged part c -> unchanged part (attempt c).
Proof.
  intros Hc s. unfold attempt. specialize (Hc s). destruct (c s). exact Hc.
Qed.

Lemma unchanged_mem {X A} (part : state -> X) what (r : result A) :
  (forall s l, part (with_reads l s) = part s) -> unchanged part (mem what r).
Proof. intros Hpart s. unfold mem. run. destruct r; apply Hpart. Qed.

(** Decomposes a computation along its binds and case distinctions; the
    primitive steps are settled by evaluation. *)
Ltac frame :=
  repeat first
    [ assumption
    | apply unchanged_attempt
    | apply unchanged_mem; reflexivity
    | apply unchanged_bind; [|intros ?]
    | match goal with
      | |- unchanged _ (if ?b then _ else _) => destruct b
      | |- unchanged _ (match ?x with _ => _ end) => destruct x
      end
    | (intros ?; reflexivity) ].

Lemma apply_hooks_keeps_files pid m hooks : unchanged files (_apply_hooks pid m hooks).
Proof.
  induction hooks as [|[func options] hooks IH]; cbn [_apply_hooks]; unfold getattr; frame.
Qed.

Lemma apply_hooks_keeps_self pid m hooks : unchanged self (_apply_hooks pid m hooks).
Proof.
  induction hooks as [|[func options] hooks IH]; cbn [_apply_hooks]; unfold getattr; frame.
Qed.

Lemma load_dll_over_keeps_files table pid m : unchanged files (load_dll_over table pid m).
Proof.
  induction table as [|[dll hooks] table IH]; cbn [load_dll_over]; frame.
  apply apply_hooks_keeps_files.
Qed.

Lemma load_dll_over_keeps_self table pid m : unchanged self (load_dll_over table pid m).
Proof.
  induction table as [|[dll hooks] table IH]; cbn [load_dll_over]; frame.
  apply apply_hooks_keeps_self.
Qed.

Lemma hook_load_keeps_files ra pstg riid pclientsite ppvobj :
  unchanged files (_hook_load ra pstg riid pclientsite ppvobj).
Proof. intros s. reflexivity. Qed.


Lemma hook_load_keeps_breakpoints ra pstg riid pclientsite ppvobj :
  unchanged breakpoints (_hook_load ra pstg riid pclientsite ppvobj).
Proof. intros s. reflexivity. Qed.

Lemma data_conversion_keeps_breakpoints proc ra lpolestream pstg ptd :
  unchanged breakpoints (_hook_data_conversion proc ra lpolestream pstg ptd).
Proof. unfold _hook_data_conversion. frame. Qed.

Lemma guid_conversion_keeps_breakpoints bytes_to_clsid KNOWN_CLSIDS
    proc ra clsid_old pclsid_new :
  unchanged breakpoints
    (_hook_guid_conversion bytes_to_clsid KNOWN_CLSIDS proc ra clsid_old pclsid_new).
Proof. unfold _hook_guid_conversion, objects_getitem. frame. Qed.

(** ** From the hooks to a whole run *)

Lemma under_policy_state callback_policy (c : M unit) s :
  fst (under_policy callback_policy c s) = fst (c s).
Proof.
  unfold under_policy, attempt, bind.
  destruct (c s) as [s1 [[]|e]]; [reflexivity|].
  destruct (callback_policy e); reflexivity.
Qed.

(** Calling a hook method is handling one of the three calls, or a
    [TypeError] that changes nothing. *)
Lemma call_method_cases bytes_to_clsid KNOWN_CLSIDS c proc ra params s :
  fst (call_method bytes_to_clsid KNOWN_CLSIDS c proc ra params s) = s
  \/ exists hc,
      call_method bytes_to_clsid KNOWN_CLSIDS c proc ra params s
      = handle bytes_to_clsid KNOWN_CLSIDS hc s.
Proof.
  unfold call_method.
  destruct c; destruct params as [|p1 [|p2 [|p3 [|p4 [|p5 ps]]]]];
    try (left; reflexivity).
  - right. exists (OleLoad ra p1 p2 p3 p4). reflexivity.
  - right. exists (OleConvertOLESTREAMToIStorage proc ra p1 p2 p3). reflexivity.
  - right. exists (OleGetAutoConvert proc ra p1 p2). reflexivity.
Qed.

(** What a pass of the loop does to the handler and the files is what the
    dispatch of the delivered event does, or nothing. *)
Lemma iteration_effect bytes_to_clsid KNOWN_CLSIDS callback_policy max_time t s :
  (self (fst (iteration bytes_to_clsid KNOWN_CLSIDS callback_policy max_time t s)) = self s
   /\ files (fst (iteration bytes_to_clsid KNOWN_CLSIDS callback_policy max_time t s))
      = files s)
  \/ exists ev,
      waited t = Ok ev
      /\ self (fst (iteration bytes_to_clsid KNOWN_CLSIDS callback_policy max_time t s))
         = self (fst (dispatch bytes_to_clsid KNOWN_CLSIDS callback_policy ev (waiting s)))
      /\ files (fst (iteration bytes_to_clsid KNOWN_CLSIDS callback_policy max_time t s))
         = files (fst (dispatch bytes_to_clsid KNOWN_CLSIDS callback_policy ev (waiting s))).
Proof.
  destruct (Z.ltb_spec 0 (debugee_count t)) as [Hcount|Hcount];
    [|left; rewrite iteration_break by lia; auto].
  destruct (Z.ltb_spec (clock t) max_time) as [Hclock|Hclock];
    [|left; rewrite iteration_break by lia; auto].
  destruct (waited t) as [ev|e] eqn:Hwait.
  - right. exists ev. split; [reflexivity|].
    destruct (iteration_delivered bytes_to_clsid KNOWN_CLSIDS callback_policy
                max_time t ev s Hcount Hclock Hwait)
      as (s' & -> & _ & Hself & Hfiles & _).
    auto.
  - left. unfold iteration.
    destruct (Z.ltb_spec 0 (debugee_count t)); [|lia].
    destruct (Z.ltb_spec (clock t) max_time); [|lia].
    cbn [andb]. rewrite Hwait. run.
    destruct e; try (split; reflexivity).
    destruct ((winerror =? ERROR_SEM_TIMEOUT) || (winerror =? WAIT_TIMEOUT));
      split; reflexivity.
Qed.

Section Lifting.

Variable bytes_to_clsid : list byte -> string.
Variable KNOWN_CLSIDS : gmap string string.
Variable callback_policy : exn -> option exn.

(** A relation between the handler and the files before and after, which
    holds of every call a hook handles. *)
Variable Q : CustomEventHandler -> gmap string (list byte) ->
             CustomEventHandler -> gmap string (list byte) -> Prop.
Hypothesis Q_refl : forall h f, Q h f h f.
Hypothesis Q_trans :
  forall h1 f1 h2 f2 h3 f3, Q h1 f1 h2 f2 -> Q h2 f2 h3 f3 -> Q h1 f1 h3 f3.
Hypothesis Q_handle :
  forall hc s,
    Q (self s) (files s)
      (self (fst (handle bytes_to_clsid KNOWN_CLSIDS hc s)))
      (files (fst (handle bytes_to_clsid KNOWN_CLSIDS hc s))).

Lemma lifted_after_calls cs s :
  Q (self s) (files s)
    (self (after_calls bytes_to_clsid KNOWN_CLSIDS cs s))
    (files (after_calls bytes_to_clsid KNOWN_CLSIDS cs s)).
Proof.
  revert s. induction cs as [|hc cs IH]; intros s; [apply Q_refl|].
  unfold after_calls in *. cbn [fold_left].
  eapply Q_trans; [apply Q_handle|apply IH].
Qed.

Lemma lifted_dispatch ev s :
  Q (self s) (files s)
    (self (fst (dispatch bytes_to_clsid KNOWN_CLSIDS callback_policy ev s)))
    (files (fst (dispatch bytes_to_clsid KNOWN_CLSIDS callback_policy ev s))).
Proof.
  unfold dispatch. cbv [bind call modify gets].
  set (s1 := with_calls (calls s ++ [Dispatch]) s).
  change (self s) with (self s1). change (files s) with (files s1).
  destruct ev as [pid m | pid proc address ra params |]; [| |apply Q_refl].
  - rewrite under_policy_state.
    unfold load_dll.
    rewrite (load_dll_over_keeps_self _hooks pid m s1).
    rewrite (load_dll_over_keeps_files _hooks pid m s1). apply Q_refl.
  - destruct (hook_at pid address (breakpoints s1)) as [h|]; [|apply Q_refl].
    rewrite under_policy_state.
    destruct (call_method_cases bytes_to_clsid KNOWN_CLSIDS (hk_callback h) proc ra
                (firstn (hk_arity h) params) s1) as [-> | [hc ->]];
      [apply Q_refl | apply Q_handle].
Qed.

Lemma lifted_iteration max_time t s :
  Q (self s) (files s)
    (self (fst (iteration bytes_to_clsid KNOWN_CLSIDS callback_policy max_time t s)))
    (files (fst (iteration bytes_to_clsid KNOWN_CLSIDS callback_policy max_time t s))).
Proof.
  destruct (iteration_effect bytes_to_clsid KNOWN_CLSIDS callback_policy max_time t s)
    as [[-> ->] | (ev & _ & -> & ->)]; [apply Q_refl|].
  apply (lifted_dispatch ev (waiting s)).
Qed.

Lemma lifted_event_loop max_time answers :
  forall s s' r,
    event_loop bytes_to_clsid KNOWN_CLSIDS callback_policy max_time answers s
    = Some (s', r) ->
    Q (self s) (files s) (self s') (files s').
Proof.
  induction answers as [|t answers IH]; intros s s' r Hloop; [discriminate|].
  cbn [event_loop] in Hloop.
  pose proof (lifted_iteration max_time t s) as Hstep.
  destruct (iteration bytes_to_clsid KNOWN_CLSIDS callback_policy max_time t s)
    as [s1 [[|]|e]]; cbn [fst] in Hstep.
  - eapply Q_trans; [exact Hstep|]. eapply IH. exact Hloop.
  - injection Hloop as <- <-. exact Hstep.
  - injection Hloop as <- <-. exact Hstep.
Qed.

(** A run starts from a new handler and the files that are there. *)
Lemma lifted_office_debugger executable target_file timeout save_objs env s0 s' r :
  office_debugger bytes_to_clsid KNOWN_CLSIDS callback_policy
    executable target_file timeout save_objs env s0
  = Some (s', r) ->
  Q new_handler (files s0) (self s') (files s').
Proof.
  unfold office_debugger.
  set (s := with_breakpoints [] (with_self new_handler s0)).
  assert (Hlaunch :
            self (fst (launch [executable; target_file] (execv_outcome env) s)) = new_handler
            /\ files (fst (launch [executable; target_file] (execv_outcome env) s))
               = files s0).
  { unfold launch. run. destruct (execv_outcome env) as [[]|[]]; split; reflexivity. }
  destruct (launch [executable; target_file] (execv_outcome env) s) as [s1 [[]|e]];
    cbn [fst] in Hlaunch; destruct Hlaunch as [Hself Hfiles].
  - destruct (event_loop _ _ _ _ _ s1) as [[s2 r2]|] eqn:Hloop; [|discriminate].
    intros [= <- _]. run. rewrite <- Hself, <- Hfiles.
    eapply lifted_event_loop. exact Hloop.
  - intros [= <- _]. cbn. rewrite Hself, Hfiles. apply Q_refl.
Qed.

End Lifting.

(** ** The files of a run *)









(** ** The tracked objects of a run *)

(** What a call a hook handles does to the tracked objects and the files:
    nothing, or the tracked object and the file of an extraction, or the
    classification of the object of the pending handle. *)
Lemma handle_objects bytes_to_clsid KNOWN_CLSIDS hc s :
  let s' := fst (handle bytes_to_clsid KNOWN_CLSIDS hc s) in
  (objects (self s') = objects (self s) /\ files s' = files s)
  \/ (exists pstg size data,
         objects (self s')
         = <[pstg := {| info_size := size; info_sha256 := SHA256.hexdigest data;
                        info_class_id := None; info_description := None |}]>
             (objects (self s))
         /\ files s' = <[SHA256.hexdigest data := data]> (files s))
  \/ (exists h inf clsid description,
         _last_pstg (self s) = Some h
         /\ objects (self s) !! h = Some inf
         /\ objects (self s')
            = alter (set_description description) h
                (alter (set_class_id clsid) h (objects (self s)))
         /\ files s' = files s).
Proof.
  cbv zeta.
  destruct hc as [ra pstg riid pcs ppv | proc ra l pstg ptd | proc ra c p]; cbn [handle].
  - left. split; reflexivity.
  - destruct (data_conversion_outcomes proc ra l pstg ptd s)
      as [(e & rs & ->) | (field & data_addr & size & data & ->)].
    + left. split; reflexivity.
    + right. left. exists pstg, size, data. split; reflexivity.
  - destruct (guid_conversion_outcomes bytes_to_clsid KNOWN_CLSIDS proc ra c p s)
      as [(r & ->) | (bs & h & inf & d & l & _ & Hlast & _ & Hobj & _ & ->)].
    + left. split; reflexivity.
    + right. right. exists h, inf, (bytes_to_clsid bs), d.
      repeat split; assumption.
Qed.

Lemma classified_keeps_digest h clsid description (objs : gmap Z info) key inf' :
  alter (set_description description) h (alter (set_class_id clsid) h objs) !! key
  = Some inf' ->
  exists inf,
    objs !! key = Some inf
    /\ info_size inf' = info_size inf /\ info_sha256 inf' = info_sha256 inf
    /\ (key <> h -> inf' = inf).
Proof.
  destruct (decide (h = key)) as [<-|Hne].
  - rewrite !lookup_alter_eq.
    destruct (objs !! h) as [inf|]; [|discriminate].
    intros [= <-]. exists inf. cbn. repeat split; congruence.
  - rewrite !lookup_alter_ne by exact Hne.
    intros H. exists inf'. auto.
Qed.

Lemma handle_backed bytes_to_clsid KNOWN_CLSIDS hc s :
  backed s -> backed (fst (handle bytes_to_clsid KNOWN_CLSIDS hc s)).
Proof.
  intros Hs key inf' Hlook.
  destruct (handle_objects bytes_to_clsid KNOWN_CLSIDS hc s)
    as [[Hobjs Hfiles] | [(pstg & size & data & Hobjs & Hfiles)
                         | (h & inf & clsid & d & _ & _ & Hobjs & Hfiles)]];
    rewrite Hobjs in Hlook; rewrite Hfiles.
  - eapply Hs. exact Hlook.
  - destruct (decide (pstg = key)) as [<-|Hne].
    + rewrite lookup_insert_eq in Hlook. injection Hlook as <-. cbn.
      rewrite lookup_insert_eq. eauto.
    + rewrite lookup_insert_ne in Hlook by exact Hne.
      apply lookup_insert_is_Some'. right. eapply Hs. exact Hlook.
  - destruct (classified_keeps_digest _ _ _ _ _ _ Hlook) as (inf0 & Hold & _ & Hsha & _).
    rewrite Hsha. eapply Hs. exact Hold.
Qed.

(** Every tracked object has its file: after any sequence of hook calls
    from a state where this holds, and at the end of every run of
    [office_debugger], each tracked object's digest names a file of the
    working directory. *)
Theorem tracked_objects_have_their_file
    (bytes_to_clsid : list byte -> string) (KNOWN_CLSIDS : gmap string string)
    (callback_policy : exn -> option exn) :
  (forall cs s, backed s -> backed (after_calls bytes_to_clsid KNOWN_CLSIDS cs s))
  /\ (forall executable target_file timeout save_objs env s0 s' r,
         office_debugger bytes_to_clsid KNOWN_CLSIDS callback_policy
           executable target_file timeout save_objs env s0
         = Some (s', r) ->
         backed s').
Proof.
  pose (Q := fun (h : CustomEventHandler) (f : gmap string (list byte))
                 (h' : CustomEventHandler) (f' : gmap string (list byte)) =>
               (forall key inf, objects h !! key = Some inf -> is_Some (f !! info_sha256 inf))
               -> forall key inf, objects h' !! key = Some inf
                                  -> is_Some (f' !! info_sha256 inf)).
  assert (Hrefl : forall h f, Q h f h f) by (intros h f H; exact H).
  assert (Htrans : forall h1 f1 h2 f2 h3 f3,
             Q h1 f1 h2 f2 -> Q h2 f2 h3 f3 -> Q h1 f1 h3 f3)
    by (intros h1 f1 h2 f2 h3 f3 H12 H23 H; apply H23, H12, H).
  assert (Hhandle : forall hc s,
             Q (self s) (files s)
               (self (fst (handle bytes_to_clsid KNOWN_CLSIDS hc s)))
               (files (fst (handle bytes_to_clsid KNOWN_CLSIDS hc s))))
    by (intros hc s H; apply (handle_backed bytes_to_clsid KNOWN_CLSIDS hc s H)).
  split.
  - intros cs s Hs.
    exact (lifted_after_calls bytes_to_clsid KNOWN_CLSIDS Q Hrefl Htrans Hhandle cs s Hs).
  - intros executable target_file timeout save_objs env s0 s' r Hrun.
    refine (lifted_office_debugger bytes_to_clsid KNOWN_CLSIDS callback_policy Q
              Hrefl Htrans Hhandle _ _ _ _ _ _ _ _ Hrun _).
    intros key inf H. cbn in H. rewrite lookup_empty in H. discriminate.
Qed.

Lemma tracked_objects_have_their_file_witness :
  backed Sim.idle
  /\ backed (after_calls Sim.clsid_text Sim.known
               [OleConvertOLESTREAMToIStorage (Sim.proc Sim.memory) 0 0x1000 0x99 0;
                OleLoad 0 0x99 0 0 0;
                OleGetAutoConvert (Sim.proc Sim.memory) 0 0x5000 0] Sim.idle).
Proof.
  assert (Hidle : backed Sim.idle)
    by (intros key inf H; cbn in H; rewrite lookup_empty in H; discriminate).
  split; [exact Hidle|].
  apply (proj1 (tracked_objects_have_their_file Sim.clsid_text Sim.known Sim.passing)).
  exact Hidle.
Defined.

Lemma handle_keeps_tracked bytes_to_clsid KNOWN_CLSIDS hc s key :
  is_Some (objects (self s) !! key) ->
  is_Some (objects (self (fst (handle bytes_to_clsid KNOWN_CLSIDS hc s))) !! key).
Proof.
  intros Hs.
  destruct (handle_objects bytes_to_clsid KNOWN_CLSIDS hc s)
    as [[Hobjs _] | [(pstg & size & data & Hobjs & _)
                    | (h & inf & clsid & d & _ & _ & Hobjs & _)]];
    rewrite Hobjs.
  - exact Hs.
  - apply lookup_insert_is_Some'. right. exact Hs.
  - destruct (decide (h = key)) as [<-|Hne].
    + rewrite !lookup_alter_eq. destruct Hs as [i ->]. cbn. eauto.
    + rewrite !lookup_alter_ne by exact Hne. exact Hs.
Qed.

(** A tracked object is never deleted: a handle tracked at some point is
    still tracked after any further hook calls and at the end of the
    session loop. *)
Theorem tracked_objects_are_never_dropped
    (bytes_to_clsid : list byte -> string) (KNOWN_CLSIDS : gmap string string)
    (callback_policy : exn -> option exn) (key : Z) :
  (forall cs s,
      is_Some (objects (self s) !! key) ->
      is_Some (objects (self (after_calls bytes_to_clsid KNOWN_CLSIDS cs s)) !! key))
  /\ (forall max_time answers s s' r,
         event_loop bytes_to_clsid KNOWN_CLSIDS callback_policy max_time answers s
         = Some (s', r) ->
         is_Some (objects (self s) !! key) ->
         is_Some (objects (self s') !! key)).
Proof.
  pose (Q := fun (h : CustomEventHandler) (f : gmap string (list byte))
                 (h' : CustomEventHandler) (f' : gmap string (list byte)) =>
               is_Some (objects h !! key) -> is_Some (objects h' !! key)).
  assert (Hrefl : forall h f, Q h f h f) by (intros h f H; exact H).
  assert (Htrans : forall h1 f1 h2 f2 h3 f3,
             Q h1 f1 h2 f2 -> Q h2 f2 h3 f3 -> Q h1 f1 h3 f3)
    by (intros h1 f1 h2 f2 h3 f3 H12 H23 H; apply H23, H12, H).
  assert (Hhandle : forall hc s,
             Q (self s) (files s)
               (self (fst (handle bytes_to_clsid KNOWN_CLSIDS hc s)))
               (files (fst (handle bytes_to_clsid KNOWN_CLSIDS hc s))))
    by (intros hc s H; apply handle_keeps_tracked; exact H).
  split.
  - intros cs s.
    exact (lifted_after_calls bytes_to_clsid KNOWN_CLSIDS Q Hrefl Htrans Hhandle cs s).
  - intros max_time answers s s' r Hloop.
    exact (lifted_event_loop bytes_to_clsid KNOWN_CLSIDS callback_policy Q
             Hrefl Htrans Hhandle max_time answers s s' r Hloop).
Qed.

Lemma tracked_objects_are_never_dropped_witness :
  is_Some (objects (self Sim.tracked) !! 0x99)
  /\ is_Some
       (objects
          (self (after_calls Sim.clsid_text Sim.known
                   [OleLoad 0 0x99 0 0 0;
                    OleGetAutoConvert (Sim.proc Sim.memory) 0 0x4000 0;
                    OleConvertOLESTREAMToIStorage (Sim.proc Sim.torn_memory) 0 0x1000 0x99 0]
                   Sim.tracked))
        !! 0x99).
Proof.
  assert (H : is_Some (objects (self Sim.tracked) !! 0x99))
    by (vm_compute; eauto).
  split; [exact H|].
  apply (proj1 (tracked_objects_are_never_dropped Sim.clsid_text Sim.known Sim.passing 0x99)).
  exact H.
Defined.

(** ** Calls in sequence *)

(** A guid-conversion call, however it ends, adds and removes no tracked
    object, changes no object's size or digest, and leaves every object
    other than that of the pending handle exactly as it is. *)
Theorem classification_touches_one_object
    (bytes_to_clsid : list byte -> string) (KNOWN_CLSIDS : gmap string string)
    (proc : process) (ra clsid_old pclsid_new : Z) (s : state) (key : Z) :
  let s' := fst (_hook_guid_conversion bytes_to_clsid KNOWN_CLSIDS
                   proc ra clsid_old pclsid_new s) in
  (is_Some (objects (self s') !! key) <-> is_Some (objects (self s) !! key))
  /\ (forall inf',
         objects (self s') !! key = Some inf' ->
         exists inf,
           objects (self s) !! key = Some inf
           /\ info_size inf' = info_size inf /\ info_sha256 inf' = info_sha256 inf)
  /\ (_last_pstg (self s) <> Some key ->
      objects (self s') !! key = objects (self s) !! key).
Proof.
  cbv zeta.
  destruct (guid_conversion_outcomes bytes_to_clsid KNOWN_CLSIDS proc ra clsid_old pclsid_new s)
    as [(r & ->) | (bs & h & inf0 & d & l & _ & Hlast & _ & Hobj & _ & ->)];
    cbn [fst self with_self asked with_reads with_logged classified objects].
  - split; [reflexivity|]. split; [|reflexivity]. intros inf' H. eauto.
  - split; [|split].
    + destruct (decide (h = key)) as [<-|Hne].
      * rewrite !lookup_alter_eq, Hobj. cbn. split; eauto.
      * rewrite !lookup_alter_ne by exact Hne. reflexivity.
    + intros inf' H.
      destruct (classified_keeps_digest _ _ _ _ _ _ H) as (inf & Hold & Hsize & Hsha & _).
      eauto.
    + intros Hne. rewrite !lookup_alter_ne by congruence. reflexivity.
Qed.

(** Extracting content whose file is already there changes no file:
    writing the same bytes under the same digest is a no-op on the
    working directory, and the content is tracked under the new handle
    too. *)
Theorem reextraction_changes_no_file
    (proc : process) (ra lpolestream pstg ptd field data_addr size : Z)
    (data : list byte) (s : state) :
  peek_pointer proc (lpolestream + 8) = Ok field ->
  peek_pointer proc field = Ok data_addr ->
  peek_dword proc (lpolestream + 12) = Ok size ->
  read proc data_addr size = Ok data ->
  files s !! SHA256.hexdigest data = Some data ->
  exists s',
    _hook_data_conversion proc ra lpolestream pstg ptd s = (s', Ok tt)
    /\ files s' = files s
    /\ (exists inf, objects (self s') !! pstg = Some inf
                    /\ info_sha256 inf = SHA256.hexdigest data)
    /\ (forall key, key <> pstg -> objects (self s') !! key = objects (self s) !! key).
Proof.
  intros H1 H2 H3 H4 Hfile.
  eexists. split; [apply data_conversion_succeeds; eassumption|].
  cbn. split; [apply insert_id; exact Hfile|]. split.
  - eexists. split; [apply lookup_insert_eq|reflexivity].
  - intros key Hne. apply lookup_insert_ne. congruence.
Qed.

Lemma reextraction_changes_no_file_witness :
  exists s',
    _hook_data_conversion (Sim.proc Sim.memory) 0 0x1000 0x77 0 Sim.tracked = (s', Ok tt)
    /\ files s' = files Sim.tracked
    /\ (exists inf, objects (self s') !! 0x77 = Some inf
                    /\ info_sha256 inf = SHA256.hexdigest Sim.payload)
    /\ (forall key, key <> 0x77 ->
                    objects (self s') !! key = objects (self Sim.tracked) !! key).
Proof.
  apply (reextraction_changes_no_file (Sim.proc Sim.memory) 0 0x1000 0x77 0
           0x2000 0x3000 42 Sim.payload Sim.tracked); vm_compute; reflexivity.
Defined.

(** An object-load call with a null storage handle leaves nothing pending:
    the guid-conversion call that follows classifies no object and logs
    nothing, whatever it reads, and the slot keeps the null handle. *)
Theorem null_handle_is_not_pending
    (bytes_to_clsid : list byte -> string) (KNOWN_CLSIDS : gmap string string)
    (proc : process) (ra riid pclientsite ppvobj ra' clsid_old pclsid_new : Z) (s : state) :
  let s' := after_calls bytes_to_clsid KNOWN_CLSIDS
              [OleLoad ra 0 riid pclientsite ppvobj;
               OleGetAutoConvert proc ra' clsid_old pclsid_new] s in
  objects (self s') = objects (self s)
  /\ logged s' = logged s
  /\ files s' = files s
  /\ _last_pstg (self s') = Some 0.
Proof.
  cbv zeta. unfold after_calls. cbn [fold_left handle].
  set (s1 := fst (_hook_load ra 0 riid pclientsite ppvobj s)).
  assert (Hidle : truthy (_last_pstg (self s1)) = false) by reflexivity.
  destruct (read proc clsid_old 16) as [bs|e] eqn:Hread.
  - erewrite guid_idle by eassumption. cbn. auto.
  - erewrite guid_read_fails by eassumption. cbn. auto.
Qed.

(** A second object-load call before the guid-conversion call replaces the
    pending handle: the object of the first handle is left unclassified
    and unchanged, the object of the second receives the identifier. *)
Theorem later_load_replaces_the_pending_handle
    (bytes_to_clsid : list byte -> string) (KNOWN_CLSIDS : gmap string string)
    (proc : process) (ra1 h1 riid1 pcs1 ppv1 ra2 h2 riid2 pcs2 ppv2 ra clsid_old pclsid_new : Z)
    (bs : list byte) (inf2 : info) (s : state) :
  read proc clsid_old 16 = Ok bs ->
  h1 <> h2 -> h2 <> 0 ->
  objects (self s) !! h2 = Some inf2 ->
  let s' := after_calls bytes_to_clsid KNOWN_CLSIDS
              [OleLoad ra1 h1 riid1 pcs1 ppv1;
               OleLoad ra2 h2 riid2 pcs2 ppv2;
               OleGetAutoConvert proc ra clsid_old pclsid_new] s in
  objects (self s') !! h1 = objects (self s) !! h1
  /\ (exists inf2',
         objects (self s') !! h2 = Some inf2'
         /\ info_class_id inf2' = Some (bytes_to_clsid bs))
  /\ _last_pstg (self s') = None.
Proof.
  intros Hread Hne Hh2 Hobj. cbv zeta. unfold after_calls. cbn [fold_left handle].
  set (s2 := fst (_hook_load ra2 h2 riid2 pcs2 ppv2
                    (fst (_hook_load ra1 h1 riid1 pcs1 ppv1 s)))).
  assert (Hlast : _last_pstg (self s2) = Some h2) by reflexivity.
  assert (Hobj2 : objects (self s2) !! h2 = Some inf2) by exact Hobj.
  destruct (KNOWN_CLSIDS !! bytes_to_clsid bs) as [known|] eqn:Hknown.
  - erewrite guid_known by eassumption. cbn [fst self with_self].
    split; [rewrite classified_lookup_ne by exact Hne; reflexivity|].
    split; [|reflexivity].
    eexists. split; [apply classified_lookup; exact Hobj2|reflexivity].
  - erewrite guid_unknown by eassumption. cbn [fst self with_self].
    split; [rewrite classified_lookup_ne by exact Hne; reflexivity|].
    split; [|reflexivity].
    eexists. split; [apply classified_lookup; exact Hobj2|reflexivity].
Qed.

Lemma later_load_replaces_the_pending_handle_witness :
  objects
    (self (after_calls Sim.clsid_text Sim.known
             [OleLoad 0 0x77 0 0 0; OleLoad 0 0x99 0 0 0;
              OleGetAutoConvert (Sim.proc Sim.memory) 0 0x4000 0] Sim.tracked))
  !! 0x77
  = objects (self Sim.tracked) !! 0x77
  /\ _last_pstg
       (self (after_calls Sim.clsid_text Sim.known
                [OleLoad 0 0x77 0 0 0; OleLoad 0 0x99 0 0 0;
                 OleGetAutoConvert (Sim.proc Sim.memory) 0 0x4000 0] Sim.tracked))
     = None.
Proof.
  destruct (later_load_replaces_the_pending_handle Sim.clsid_text Sim.known
              (Sim.proc Sim.memory) 0 0x77 0 0 0 0 0x99 0 0 0 0 0x4000 0
              Sim.package_clsid
              {| info_size := 42; info_sha256 := SHA256.hexdigest Sim.payload;
                 info_class_id := None; info_description := None |}
              Sim.tracked)
    as (H1 & _ & Hslot).
  - vm_compute. reflexivity.
  - lia.
  - lia.
  - vm_compute. reflexivity.
  - split; [exact H1|exact Hslot].
Defined.

(** A pending handle is classified once: after a guid-conversion call that
    found a handle pending and completed, a further guid-conversion call
    changes no tracked object and logs nothing, until the next object-load
    call. *)
Theorem pending_handle_is_classified_once
    (bytes_to_clsid : list byte -> string) (KNOWN_CLSIDS : gmap string string)
    (proc proc' : process) (ra clsid_old pclsid_new ra' clsid_old' pclsid_new' : Z)
    (s s1 : state) :
  truthy (_last_pstg (self s)) = true ->
  _hook_guid_conversion bytes_to_clsid KNOWN_CLSIDS proc ra clsid_old pclsid_new s
  = (s1, Ok tt) ->
  exists s2 r,
    _hook_guid_conversion bytes_to_clsid KNOWN_CLSIDS proc' ra' clsid_old' pclsid_new' s1
    = (s2, r)
    /\ self s2 = self s1 /\ logged s2 = logged s1 /\ files s2 = files s1.
Proof.
  intros Htruthy Hrun.
  assert (Hidle : truthy (_last_pstg (self s1)) = false).
  { destruct (guid_conversion_outcomes bytes_to_clsid KNOWN_CLSIDS
                proc ra clsid_old pclsid_new s)
      as [(r & Hsame) | (bs & h & inf & d & l & _ & _ & _ & _ & _ & Hdone)].
    - exfalso. destruct (truthy_Some _ Htruthy) as (h & Hlast & Hh).
      destruct (read proc clsid_old 16) as [bs|e] eqn:Hread;
        [|erewrite guid_read_fails in Hrun by eassumption; discriminate].
      destruct (objects (self s) !! h) as [inf|] eqn:Hobj;
        [|erewrite guid_untracked in Hrun by eassumption; discriminate].
      destruct (KNOWN_CLSIDS !! bytes_to_clsid bs) eqn:Hknown.
      + erewrite guid_known in Hsame by eassumption.
        apply (f_equal (fun p => _last_pstg (self (fst p)))) in Hsame.
        cbn in Hsame. congruence.
      + erewrite guid_unknown in Hsame by eassumption.
        apply (f_equal (fun p => _last_pstg (self (fst p)))) in Hsame.
        cbn in Hsame. congruence.
    - rewrite Hdone in Hrun. injection Hrun as <-. reflexivity. }
  destruct (read proc' clsid_old' 16) as [bs'|e] eqn:Hread'.
  - do 2 eexists. split; [eapply guid_idle; eassumption|]. cbn. auto.
  - do 2 eexists. split; [eapply guid_read_fails; eassumption|]. cbn. auto.
Qed.

Lemma pending_handle_is_classified_once_witness :
  exists s2 r,
    _hook_guid_conversion Sim.clsid_text Sim.known (Sim.proc Sim.memory) 0 0x5000 0
      (fst (_hook_guid_conversion Sim.clsid_text Sim.known (Sim.proc Sim.memory)
              0 0x4000 0 Sim.pending))
    = (s2, r)
    /\ self s2
       = self (fst (_hook_guid_conversion Sim.clsid_text Sim.known (Sim.proc Sim.memory)
                      0 0x4000 0 Sim.pending)).
Proof.
  destruct (pending_handle_is_classified_once Sim.clsid_text Sim.known
              (Sim.proc Sim.memory) (Sim.proc Sim.memory) 0 0x4000 0 0 0x5000 0
              Sim.pending
              (fst (_hook_guid_conversion Sim.clsid_text Sim.known (Sim.proc Sim.memory)
                      0 0x4000 0 Sim.pending)))
    as (s2 & r & Hrun & Hself & _).
  - vm_compute. reflexivity.
  - vm_compute. reflexivity.
  - exists s2, r. split; [exact Hrun|exact Hself].
Defined.

(** ** The breakpoints a module load sets *)

Lemma apply_hooks_declared pid m all hooks :
  incl hooks all ->
  forall s,
  exists new,
    breakpoints (fst (_apply_hooks pid m hooks s)) = breakpoints s ++ new
    /\ Forall (declared_hook pid m all) new
    /\ (length new <= length hooks)%nat.
Proof.
  induction hooks as [|[func options] hooks IH]; intros Hincl s.
  - exists []. cbn. rewrite app_nil_r. auto.
  - cbn [_apply_hooks].
    assert (Hin : In (func, options) all) by (apply Hincl; left; reflexivity).
    assert (Hrest : incl hooks all) by (intros x Hx; apply Hincl; right; exact Hx).
    destruct (resolve m func) as [address|] eqn:Hres; cbn [truthy default from_option id];
      [|exists []; cbn; rewrite app_nil_r; split; [reflexivity|split; [constructor|lia]]].
    destruct (Z.eqb_spec address 0) as [Hz|Hnz]; cbn [negb];
      [exists []; cbn; rewrite app_nil_r; split; [reflexivity|split; [constructor|lia]]|].
    unfold getattr.
    destruct (method_named (opt_hook options)) as [callback|] eqn:Hname;
      [|exists []; cbn; rewrite app_nil_r; split; [reflexivity|split; [constructor|lia]]].
    unfold hook_function. run.
    match goal with
    | |- context [_apply_hooks pid m hooks ?st] =>
        destruct (IH Hrest st) as (new & Hbps & Hall & Hlen)
    end.
    exists ({| hk_pid := pid; hk_address := address; hk_callback := callback;
               hk_arity := opt_args options |} :: new).
    split; [rewrite Hbps; cbn; rewrite <- app_assoc; reflexivity|].
    split; [|cbn; lia].
    constructor; [|exact Hall].
    split; [reflexivity|]. split; [exact Hnz|].
    exists func, options. cbn. auto.
Qed.

(** Every breakpoint a module load sets is one the hook table declares
    for that module: in the process of the event, at the non-null address
    the module resolves a declared function to, with that function's
    callback and number of arguments; there are at most three of them, and
    for a module that is not [ole32.dll] there is none and nothing is
    logged.  The handler and the files are left as they are. *)
Theorem installed_hooks_are_declared (pid : Z) (m : module) (s : state) :
  exists new,
    breakpoints (fst (load_dll pid m s)) = breakpoints s ++ new
    /\ Forall (declared_hook pid m ole32_hooks) new
    /\ (length new <= 3)%nat
    /\ (match_name m "ole32.dll" = false ->
        new = [] /\ logged (fst (load_dll pid m s)) = logged s)
    /\ self (fst (load_dll pid m s)) = self s
    /\ files (fst (load_dll pid m s)) = files s.
Proof.
  cut (exists new,
          breakpoints (fst (load_dll pid m s)) = breakpoints s ++ new
          /\ Forall (declared_hook pid m ole32_hooks) new
          /\ (length new <= 3)%nat
          /\ (match_name m "ole32.dll" = false ->
              new = [] /\ logged (fst (load_dll pid m s)) = logged s)).
  { intros (new & H1 & H2 & H3 & H4). exists new.
    repeat (split; [assumption|]).
    split; [apply load_dll_over_keeps_self | apply load_dll_over_keeps_files]. }
  unfold load_dll, _hooks. cbn [load_dll_over].
  destruct (match_name m "ole32.dll").
  - run.
    match goal with
    | |- context [_apply_hooks pid m ?hooks ?st] =>
        destruct (apply_hooks_declared pid m ole32_hooks hooks (incl_refl _) st)
          as (new & Hbps & Hall & Hlen);
        exists new; destruct (_apply_hooks pid m hooks st) as [s1 [ok|e]]
    end; cbn [fst breakpoints with_logged length] in *;
      (split; [exact Hbps|]); (split; [exact Hall|]); (split; [exact Hlen|]);
      discriminate.
  - exists []. run. rewrite app_nil_r.
    split; [reflexivity|]. split; [constructor|]. split; [cbn; lia|]. auto.
Qed.

(** ** How a run ends *)

Lemma office_debugger_after_launch bytes_to_clsid KNOWN_CLSIDS callback_policy
    executable target_file timeout save_objs env s0 s1 prefix more s2 :
  ticks env = prefix ++ more ->
  launch [executable; target_file] (execv_outcome env)
    (with_breakpoints [] (with_self new_handler s0))
  = (s1, Ok tt) ->
  passes bytes_to_clsid KNOWN_CLSIDS callback_policy (start_time env + timeout) prefix s1
  = Some s2 ->
  office_debugger bytes_to_clsid KNOWN_CLSIDS callback_policy
    executable target_file timeout save_objs env s0
  = ended (event_loop bytes_to_clsid KNOWN_CLSIDS callback_policy
             (start_time env + timeout) more s2).
Proof.
  intros Hticks Hlaunch Hprefix. unfold office_debugger.
  rewrite Hlaunch, Hticks.
  rewrite (event_loop_app _ _ _ _ _ _ _ s2) by exact Hprefix.
  destruct (event_loop _ _ _ _ more s2) as [[s' r]|]; [|reflexivity].
  unfold ended. run. rewrite <- app_assoc. reflexivity.
Qed.

(** The session loop ends as soon as the debugger has no debuggee left or
    the deadline is reached: no further wait is made, [debug.stop()] is
    called and the debugger left, and [office_debugger] returns [None]
    without an exception, the handler, the files and the log being as the
    passes before left them. *)
Theorem loop_ends_without_waiting
    (bytes_to_clsid : list byte -> string) (KNOWN_CLSIDS : gmap string string)
    (callback_policy : exn -> option exn)
    (executable target_file : string) (timeout : Z) (save_objs : bool)
    (env : session) (s0 s1 s2 : state) (prefix rest : list tick) (t : tick) :
  ticks env = prefix ++ t :: rest ->
  launch [executable; target_file] (execv_outcome env)
    (with_breakpoints [] (with_self new_handler s0))
  = (s1, Ok tt) ->
  passes bytes_to_clsid KNOWN_CLSIDS callback_policy (start_time env + timeout) prefix s1
  = Some s2 ->
  debugee_count t <= 0 \/ start_time env + timeout <= clock t ->
  exists s3,
    office_debugger bytes_to_clsid KNOWN_CLSIDS callback_policy
      executable target_file timeout save_objs env s0
    = Some (s3, Ok PyNone)
    /\ calls s3 = calls s2 ++ [Stop; ExitDebug]
    /\ self s3 = self s2 /\ files s3 = files s2 /\ logged s3 = logged s2
    /\ reads s3 = reads s2.
Proof.
  intros Hticks Hlaunch Hprefix Hend.
  rewrite (office_debugger_after_launch _ _ _ _ _ _ _ _ _ s1 prefix (t :: rest) s2)
    by assumption.
  cbn [event_loop]. rewrite iteration_break by exact Hend.
  eexists. split; [reflexivity|]. cbn. auto 10.
Qed.

Lemma loop_ends_without_waiting_witness :
  exists s3,
    office_debugger Sim.clsid_text Sim.known Sim.passing
      "WINWORD.EXE" "sample.rtf" 0 true
      {| start_time := 5; execv_outcome := Ok tt;
         ticks := [Sim.delivers 5 Sim.ole32_loaded] |}
      Sim.idle
    = Some (s3, Ok PyNone)
    /\ calls s3 = [SetKillOnExit; Execv ["WINWORD.EXE"; "sample.rtf"]; Stop; ExitDebug]
    /\ breakpoints s3 = [].
Proof.
  destruct (loop_ends_without_waiting Sim.clsid_text Sim.known Sim.passing
              "WINWORD.EXE" "sample.rtf" 0 true
              {| start_time := 5; execv_outcome := Ok tt;
                 ticks := [Sim.delivers 5 Sim.ole32_loaded] |}
              Sim.idle
              (fst (launch ["WINWORD.EXE"; "sample.rtf"] (Ok tt)
                      (with_breakpoints [] (with_self new_handler Sim.idle))))
              (fst (launch ["WINWORD.EXE"; "sample.rtf"] (Ok tt)
                      (with_breakpoints [] (with_self new_handler Sim.idle))))
              [] [] (Sim.delivers 5 Sim.ole32_loaded))
    as (s3 & Hrun & Hcalls & _).
  - reflexivity.
  - reflexivity.
  - reflexivity.
  - right. cbn. lia.
  - exists s3. split; [exact Hrun|]. split; [rewrite Hcalls; reflexivity|].
    injection Hrun as <-. reflexivity.
Defined.

(** A launch that fails with a [WindowsError] does not end the run with
    an exception: one error record is logged, the loop is still entered,
    and with no debuggee to wait for the run ends at once, the debugger
    stopped, no file written and no object tracked. *)
Theorem failed_launch_is_logged_and_the_run_ends
    (bytes_to_clsid : list byte -> string) (KNOWN_CLSIDS : gmap string string)
    (callback_policy : exn -> option exn)
    (executable target_file : string) (timeout : Z) (save_objs : bool)
    (env : session) (s0 : state) (winerror : Z) (t : tick) (rest : list tick) :
  execv_outcome env = Raise (WindowsError winerror) ->
  ticks env = t :: rest ->
  debugee_count t <= 0 ->
  exists s3,
    office_debugger bytes_to_clsid KNOWN_CLSIDS callback_policy
      executable target_file timeout save_objs env s0
    = Some (s3, Ok PyNone)
    /\ logged s3
       = logged s0 ++
         [{| levelname := ERROR;
             msg := "Could not run Office application, check it is 32-bit";
             args := [] |}]
    /\ calls s3
       = calls s0 ++ [SetKillOnExit; Execv [executable; target_file]; Stop; ExitDebug]
    /\ files s3 = files s0
    /\ objects (self s3) = ∅.
Proof.
  intros Hexecv Hticks Hcount.
  unfold office_debugger. rewrite Hexecv, Hticks.
  unfold launch. run. cbn [event_loop].
  rewrite iteration_break by (left; exact Hcount).
  eexists. split; [reflexivity|]. cbn. rewrite <- !app_assoc. auto 10.
Qed.

Lemma failed_launch_is_logged_and_the_run_ends_witness :
  exists s3,
    office_debugger Sim.clsid_text Sim.known Sim.passing
      "WINWORD.EXE" "sample.rtf" 10 true
      {| start_time := 0; execv_outcome := Raise (WindowsError 193);
         ticks := [{| debugee_count := 0; clock := 0; waited := Ok OtherEvent |}] |}
      Sim.idle
    = Some (s3, Ok PyNone)
    /\ map levelname (logged s3) = [ERROR]
    /\ calls s3 = [SetKillOnExit; Execv ["WINWORD.EXE"; "sample.rtf"]; Stop; ExitDebug].
Proof.
  destruct (failed_launch_is_logged_and_the_run_ends Sim.clsid_text Sim.known Sim.passing
              "WINWORD.EXE" "sample.rtf" 10 true
              {| start_time := 0; execv_outcome := Raise (WindowsError 193);
                 ticks := [{| debugee_count := 0; clock := 0; waited := Ok OtherEvent |}] |}
              Sim.idle 193 {| debugee_count := 0; clock := 0; waited := Ok OtherEvent |} [])
    as (s3 & Hrun & Hlog & Hcalls & _).
  - reflexivity.
  - reflexivity.
  - cbn. lia.
  - exists s3. split; [exact Hrun|]. rewrite Hlog, Hcalls. split; reflexivity.
Defined.

(** The calls of the loop are waits, dispatches and resumptions only. *)
Lemma event_loop_trace bytes_to_clsid KNOWN_CLSIDS callback_policy max_time answers :
  forall s s' r,
    event_loop bytes_to_clsid KNOWN_CLSIDS callback_policy max_time answers s = Some (s', r) ->
    exists tr,
      calls s' = calls s ++ tr
      /\ resumed_after_dispatch tr = true
      /\ Forall (fun c => c = Wait 1000 \/ c = Dispatch \/ c = Cont) tr.
Proof.
  induction answers as [|t answers IH]; intros s s' r Hloop; [discriminate|].
  cbn [event_loop] in Hloop.
  destruct (iteration_calls bytes_to_clsid KNOWN_CLSIDS callback_policy max_time t s)
    as (tr1 & Hcalls & Htr1).
  assert (Hone : Forall (fun c => c = Wait 1000 \/ c = Dispatch \/ c = Cont) tr1)
    by (destruct Htr1 as [-> | [-> | ->]]; repeat constructor; auto).
  destruct (iteration bytes_to_clsid KNOWN_CLSIDS callback_policy max_time t s)
    as [s1 [[|]|e]]; cbn [fst] in Hcalls.
  - destruct (IH _ _ _ Hloop) as (tr & Htr & Hok & Hall).
    exists (tr1 ++ tr). split; [rewrite Htr, Hcalls, app_assoc; reflexivity|].
    split; [destruct Htr1 as [-> | [-> | ->]]; exact Hok|].
    apply Forall_app. split; assumption.
  - injection Hloop as <- <-. exists tr1. split; [exact Hcalls|].
    split; [destruct Htr1 as [-> | [-> | ->]]; reflexivity|exact Hone].
  - injection Hloop as <- <-. exists tr1. split; [exact Hcalls|].
    split; [destruct Htr1 as [-> | [-> | ->]]; reflexivity|exact Hone].
Qed.

(** However the loop of a run ends, normally or with an exception,
    [debug.stop()] is called after it and is the last call before the
    debugger is left; before it the run only waits, dispatches and resumes,
    every dispatch followed at once by the resumption.  This holds when
    [debug.execv] returned or raised a [WindowsError]; when it raised
    another exception the run ends with it before the loop and
    [debug.stop()] is not called by [office_debugger]. *)
Theorem debugger_is_stopped_however_the_loop_ends
    (bytes_to_clsid : list byte -> string) (KNOWN_CLSIDS : gmap string string)
    (callback_policy : exn -> option exn)
    (executable target_file : string) (timeout : Z) (save_objs : bool)
    (env : session) (s0 s' : state) (r : result pyvalue) :
  office_debugger bytes_to_clsid KNOWN_CLSIDS callback_policy
    executable target_file timeout save_objs env s0
  = Some (s', r) ->
  (execv_outcome env = Ok tt \/ (exists winerror, execv_outcome env = Raise (WindowsError winerror)) ->
   exists tr,
     calls s'
     = calls s0 ++ [SetKillOnExit; Execv [executable; target_file]] ++ tr ++ [Stop; ExitDebug]
     /\ resumed_after_dispatch tr = true
     /\ Forall (fun c => c = Wait 1000 \/ c = Dispatch \/ c = Cont) tr)
  /\ (forall e,
         execv_outcome env = Raise e ->
         (forall winerror, e <> WindowsError winerror) ->
         r = Raise e
         /\ calls s'
            = calls s0 ++ [SetKillOnExit; Execv [executable; target_file]; ExitDebug]).
Proof.
  intros Hrun. unfold office_debugger in Hrun. split.
  - intros Hexecv.
    assert (Hlaunch : exists s1,
               launch [executable; target_file] (execv_outcome env)
                 (with_breakpoints [] (with_self new_handler s0))
               = (s1, Ok tt)
               /\ calls s1 = calls s0 ++ [SetKillOnExit; Execv [executable; target_file]]).
    { destruct Hexecv as [-> | [winerror ->]]; unfold launch; run;
        (eexists; split; [reflexivity|]); cbn; rewrite <- app_assoc; reflexivity. }
    destruct Hlaunch as (s1 & Hlaunch & Hcalls1). rewrite Hlaunch in Hrun.
    destruct (event_loop _ _ _ _ _ s1) as [[s2 r2]|] eqn:Hloop; [|discriminate].
    destruct (event_loop_trace _ _ _ _ _ _ _ _ Hloop) as (tr & Htr & Hok & Hall).
    injection Hrun as <- _. exists tr. split; [|auto].
    run. rewrite Htr, Hcalls1, <- !app_assoc. reflexivity.
  - intros e Hexecv Hother. rewrite Hexecv in Hrun.
    unfold launch in Hrun. revert Hrun. run.
    destruct e as [winerror| | |]; [destruct (Hother winerror); reflexivity| | |];
      intros [= <- <-]; (split; [reflexivity|]); cbn; rewrite <- !app_assoc; reflexivity.
Qed.

Lemma debugger_is_stopped_however_the_loop_ends_witness :
  exists tr,
    calls (fst (default (Sim.idle, Ok PyNone)
                  (office_debugger Sim.clsid_text Sim.known Sim.passing
                     "WINWORD.EXE" "sample.rtf" 10 true
                     {| start_time := 0; execv_outcome := Ok tt;
                        ticks := [Sim.delivers 1 Sim.ole32_loaded;
                                  Sim.delivers 2 (Sim.convert_called Sim.torn_memory)] |}
                     Sim.idle)))
    = calls Sim.idle ++ [SetKillOnExit; Execv ["WINWORD.EXE"; "sample.rtf"]]
      ++ tr ++ [Stop; ExitDebug]
    /\ resumed_after_dispatch tr = true
    /\ Forall (fun c => c = Wait 1000 \/ c = Dispatch \/ c = Cont) tr.
Proof.
  apply (proj1 (debugger_is_stopped_however_the_loop_ends Sim.clsid_text Sim.known
                  Sim.passing "WINWORD.EXE" "sample.rtf" 10 true
                  {| start_time := 0; execv_outcome := Ok tt;
                     ticks := [Sim.delivers 1 Sim.ole32_loaded;
                               Sim.delivers 2 (Sim.convert_called Sim.torn_memory)] |}
                  Sim.idle _ (Raise (WindowsError Sim.ERROR_PARTIAL_COPY))
                  ltac:(vm_compute; reflexivity))).
  left. reflexivity.
Defined.

(** A wait that fails with anything but one of the two timeout codes ends
    the run with that exception: nothing is dispatched and the target is
    not resumed in that pass, [debug.stop()] is called, and the handler
    and the files are as the passes before left them. *)
Theorem wait_failure_ends_the_run
    (bytes_to_clsid : list byte -> string) (KNOWN_CLSIDS : gmap string string)
    (callback_policy : exn -> option exn)
    (executable target_file : string) (timeout : Z) (save_objs : bool)
    (env : session) (s0 s1 s2 : state) (prefix rest : list tick) (t : tick) (e : exn) :
  ticks env = prefix ++ t :: rest ->
  launch [executable; target_file] (execv_outcome env)
    (with_breakpoints [] (with_self new_handler s0))
  = (s1, Ok tt) ->
  passes bytes_to_clsid KNOWN_CLSIDS callback_policy (start_time env + timeout) prefix s1
  = Some s2 ->
  0 < debugee_count t -> clock t < start_time env + timeout ->
  waited t = Raise e ->
  e <> WindowsError ERROR_SEM_TIMEOUT -> e <> WindowsError WAIT_TIMEOUT ->
  exists s3,
    office_debugger bytes_to_clsid KNOWN_CLSIDS callback_policy
      executable target_file timeout save_objs env s0
    = Some (s3, Raise e)
    /\ calls s3 = calls s2 ++ [Wait 1000; Stop; ExitDebug]
    /\ self s3 = self s2 /\ files s3 = files s2 /\ logged s3 = logged s2.
Proof.
  intros Hticks Hlaunch Hprefix Hcount Hclock Hwait Hsem Htimeout.
  rewrite (office_debugger_after_launch _ _ _ _ _ _ _ _ _ s1 prefix (t :: rest) s2)
    by assumption.
  cbn [event_loop]. unfold iteration.
  destruct (Z.ltb_spec 0 (debugee_count t)); [|lia].
  destruct (Z.ltb_spec (clock t) (start_time env + timeout)); [|lia].
  cbn [andb]. rewrite Hwait. run.
  assert (Hraise :
            (match e with
             | WindowsError winerror =>
                 if (winerror =? ERROR_SEM_TIMEOUT) || (winerror =? WAIT_TIMEOUT)
                 then ret Continue
                 else raise (WindowsError winerror)
             | _ => raise e
             end) (waiting s2)
            = (waiting s2, @Raise control e)).
  { destruct e as [winerror| | |]; try reflexivity.
    destruct (Z.eqb_spec winerror ERROR_SEM_TIMEOUT) as [->|_]; [contradiction|].
    destruct (Z.eqb_spec winerror WAIT_TIMEOUT) as [->|_]; [contradiction|].
    reflexivity. }
  unfold waiting in Hraise.
  match goal with
  | |- context [match ?x with (_, _) => _ end] =>
      match type of Hraise with ?y = _ => change x with y end
  end.
  rewrite Hraise.
  eexists. split; [reflexivity|]. cbn. rewrite <- !app_assoc. auto.
Qed.

Lemma wait_failure_ends_the_run_witness :
  exists s3,
    office_debugger Sim.clsid_text Sim.known Sim.passing
      "WINWORD.EXE" "sample.rtf" 10 true
      {| start_time := 0; execv_outcome := Ok tt;
         ticks := [Sim.delivers 1 Sim.ole32_loaded;
                   {| debugee_count := 1; clock := 2; waited := Raise (WindowsError 5) |}] |}
      Sim.idle
    = Some (s3, Raise (WindowsError 5))
    /\ calls s3
       = [SetKillOnExit; Execv ["WINWORD.EXE"; "sample.rtf"];
          Wait 1000; Dispatch; Cont; Wait 1000; Stop; ExitDebug].
Proof.
  destruct (wait_failure_ends_the_run Sim.clsid_text Sim.known Sim.passing
              "WINWORD.EXE" "sample.rtf" 10 true
              {| start_time := 0; execv_outcome := Ok tt;
                 ticks := [Sim.delivers 1 Sim.ole32_loaded;
                           {| debugee_count := 1; clock := 2;
                              waited := Raise (WindowsError 5) |}] |}
              Sim.idle
              (fst (launch ["WINWORD.EXE"; "sample.rtf"] (Ok tt)
                      (with_breakpoints [] (with_self new_handler Sim.idle))))
              (default Sim.idle
                 (passes Sim.clsid_text Sim.known Sim.passing 10
                    [Sim.delivers 1 Sim.ole32_loaded]
                    (fst (launch ["WINWORD.EXE"; "sample.rtf"] (Ok tt)
                            (with_breakpoints [] (with_self new_handler Sim.idle))))))
              [Sim.delivers 1 Sim.ole32_loaded] []
              {| debugee_count := 1; clock := 2; waited := Raise (WindowsError 5) |}
              (WindowsError 5))
    as (s3 & Hrun & Hcalls & _).
  - reflexivity.
  - reflexivity.
  - vm_compute. reflexivity.
  - cbn. lia.
  - cbn. lia.
  - reflexivity.
  - discriminate.
  - discriminate.
  - exists s3. split; [exact Hrun|]. rewrite Hcalls. vm_compute. reflexivity.
Defined.

(** ** The names of the files written *)

Lemma add_words_length xs ys :
  length xs = length ys -> length (SHA256.add_words xs ys) = length xs.
Proof.
  revert ys. induction xs as [|x xs IH]; intros [|y ys] H; cbn in *; try congruence.
  f_equal. apply IH. congruence.
Qed.

Lemma round_length v kw : length (SHA256.round v kw) = length v.
Proof.
  unfold SHA256.round.
  destruct v as [|a [|b [|c [|d [|e [|f [|g [|h [|i v]]]]]]]]]; reflexivity.
Qed.

Lemma rounds_length kws : forall v, length (fold_left SHA256.round kws v) = length v.
Proof.
  induction kws as [|kw kws IH]; intros v; cbn; [reflexivity|].
  rewrite IH. apply round_length.
Qed.

Lemma compress_length h block : length (SHA256.compress h block) = length h.
Proof.
  unfold SHA256.compress. apply add_words_length. symmetry. apply rounds_length.
Qed.

Lemma blocks_length fuel : forall ws h, length (SHA256.blocks fuel ws h) = length h.
Proof.
  induction fuel as [|fuel IH]; intros ws h; cbn; [reflexivity|].
  destruct ws; [reflexivity|]. rewrite IH. apply compress_length.
Qed.

Lemma be_bytes_range n x : Forall (fun b => 0 <= b < 256) (SHA256.be_bytes n x).
Proof.
  induction n as [|n IH]; cbn; constructor; [|exact IH].
  apply Z.mod_pos_bound. lia.
Qed.

Lemma be_bytes_length n x : length (SHA256.be_bytes n x) = n.
Proof. induction n as [|n IH]; cbn; congruence. Qed.

Lemma digest_bytes msg :
  length (SHA256.digest msg) = 32%nat
  /\ Forall (fun b => 0 <= b < 256) (SHA256.digest msg).
Proof.
  unfold SHA256.digest.
  set (h := SHA256.blocks _ _ _).
  assert (Hlen : length h = 8%nat) by (subst h; rewrite blocks_length; reflexivity).
  clearbody h. split.
  - assert (Hflat : forall ws, length (flat_map (SHA256.be_bytes 4) ws)
                               = (4 * length ws)%nat).
    { induction ws as [|w ws IH]; [reflexivity|].
      cbn [flat_map]. rewrite length_app, be_bytes_length, IH. cbn [length]. lia. }
    rewrite Hflat, Hlen. reflexivity.
  - clear Hlen. induction h as [|w h IH]; cbn [flat_map]; [constructor|].
    apply Forall_app. split; [apply be_bytes_range|exact IH].
Qed.

Lemma hex_digit_is_hex n : 0 <= n < 16 -> is_Some (nibble_of_ascii (hex_digit n)).
Proof.
  intros Hn.
  assert (Hall : forallb (fun k => bool_decide
                                     (is_Some (nibble_of_ascii (hex_digit (Z.of_nat k)))))
                         (seq 0 16) = true) by (vm_compute; reflexivity).
  rewrite forallb_forall in Hall.
  specialize (Hall (Z.to_nat n)). rewrite Z2Nat.id in Hall by lia.
  eapply bool_decide_eq_true_1. apply Hall. apply in_seq. lia.
Qed.

Lemma hex_of_bytes_text bs :
  Forall (fun b => 0 <= b < 256) bs ->
  all_hex (hex_of_bytes bs) = true
  /\ String.length (hex_of_bytes bs) = (2 * length bs)%nat.
Proof.
  induction 1 as [|b bs Hb _ [IHhex IHlen]]; [split; reflexivity|].
  cbn [hex_of_bytes all_hex String.length length]. split.
  - rewrite IHhex.
    rewrite !bool_decide_eq_true_2; [reflexivity| |].
    + apply hex_digit_is_hex. apply Z.mod_pos_bound. lia.
    + apply hex_digit_is_hex. split; [apply Z.div_pos; lia|].
      apply Z.div_lt_upper_bound; lia.
  - rewrite IHlen. lia.
Qed.

(** The name of every object file is a text of exactly sixty-four
    lowercase hexadecimal digits, whatever bytes the target holds: a
    data-conversion call that extracts writes one file, under such a name,
    and no content can make the name a path outside the working
    directory. *)
Theorem object_file_name_is_sixty_four_hex_digits
    (proc : process) (ra lpolestream pstg ptd : Z) (s s' : state) :
  _hook_data_conversion proc ra lpolestream pstg ptd s = (s', Ok tt) ->
  exists name data,
    files s' = <[name := data]> (files s)
    /\ name = SHA256.hexdigest data
    /\ all_hex name = true
    /\ String.length name = 64%nat.
Proof.
  intros Hrun.
  destruct (data_conversion_outcomes proc ra lpolestream pstg ptd s)
    as [(e & rs & Hfail) | (field & data_addr & size & data & Hok)].
  - rewrite Hfail in Hrun. discriminate.
  - rewrite Hok in Hrun. injection Hrun as <-.
    exists (SHA256.hexdigest data), data.
    split; [reflexivity|]. split; [reflexivity|].
    unfold SHA256.hexdigest.
    destruct (digest_bytes (map Z_of_byte data)) as [Hlen Hrange].
    destruct (hex_of_bytes_text _ Hrange) as [Hhex Hsize].
    split; [exact Hhex|]. rewrite Hsize, Hlen. reflexivity.
Qed.

Lemma object_file_name_is_sixty_four_hex_digits_witness :
  exists name data,
    files Sim.tracked = <[name := data]> (files Sim.idle)
    /\ name = SHA256.hexdigest data
    /\ all_hex name = true
    /\ String.length name = 64%nat.
Proof.
  apply (object_file_name_is_sixty_four_hex_digits (Sim.proc Sim.memory)
           0 0x1000 0x99 0 Sim.idle Sim.tracked).
  vm_compute. reflexivity.
Defined.

(** ** A pending handle that was never tracked *)

(** While the pending handle has no tracked object, guid-conversion calls
    keep failing: however many arrive, whatever they read, the handler
    stays as it is, the handle still pending, and nothing is logged or
    written; only another object-load call ends this. *)
Theorem untracked_pending_handle_blocks_classification
    (bytes_to_clsid : list byte -> string) (KNOWN_CLSIDS : gmap string string)
    (h : Z) (cs : list hook_call) (s : state) :
  _last_pstg (self s) = Some h -> h <> 0 ->
  objects (self s) !! h = None ->
  Forall (fun c => exists proc ra clsid_old pclsid_new,
                     c = OleGetAutoConvert proc ra clsid_old pclsid_new) cs ->
  self (after_calls bytes_to_clsid KNOWN_CLSIDS cs s) = self s
  /\ logged (after_calls bytes_to_clsid KNOWN_CLSIDS cs s) = logged s
  /\ files (after_calls bytes_to_clsid KNOWN_CLSIDS cs s) = files s
  /\ Forall (fun c =>
               forall s1, self s1 = self s ->
                          exists e, snd (handle bytes_to_clsid KNOWN_CLSIDS c s1) = Raise e)
            cs.
Proof.
  intros Hlast Hh Hnone Hcs.
  assert (Hone : forall proc ra clsid_old pclsid_new s1,
             self s1 = self s ->
             exists e,
               _hook_guid_conversion bytes_to_clsid KNOWN_CLSIDS
                 proc ra clsid_old pclsid_new s1
               = (asked clsid_old s1, Raise e)).
  { intros proc ra clsid_old pclsid_new s1 Hself.
    destruct (read proc clsid_old 16) as [bs|e] eqn:Hread.
    - exists (KeyError h). eapply guid_untracked; rewrite ?Hself; eassumption.
    - exists e. apply guid_read_fails. exact Hread. }
  assert (Hstate : forall s1,
             self s1 = self s -> logged s1 = logged s -> files s1 = files s ->
             self (after_calls bytes_to_clsid KNOWN_CLSIDS cs s1) = self s
             /\ logged (after_calls bytes_to_clsid KNOWN_CLSIDS cs s1) = logged s
             /\ files (after_calls bytes_to_clsid KNOWN_CLSIDS cs s1) = files s).
  { induction Hcs as [|c cs (proc & ra & clsid_old & pclsid_new & ->) _ IH];
      intros s1 Hself Hlog Hfiles; [auto|].
    unfold after_calls in *. cbn [fold_left handle].
    destruct (Hone proc ra clsid_old pclsid_new s1 Hself) as [e ->].
    apply IH; assumption. }
  destruct (Hstate s eq_refl eq_refl eq_refl) as (H1 & H2 & H3).
  repeat (split; [assumption|]).
  eapply Forall_impl; [exact Hcs|].
  intros c (proc & ra & clsid_old & pclsid_new & ->) s1 Hself. cbn [handle].
  destruct (Hone proc ra clsid_old pclsid_new s1 Hself) as [e ->]. eauto.
Qed.

Lemma untracked_pending_handle_blocks_classification_witness :
  self (after_calls Sim.clsid_text Sim.known
          [OleGetAutoConvert (Sim.proc Sim.memory) 0 0x4000 0;
           OleGetAutoConvert (Sim.proc Sim.memory) 0 0x5000 0]
          Sim.pending_untracked)
  = self Sim.pending_untracked
  /\ _last_pstg (self Sim.pending_untracked) = Some 0x99.
Proof.
  split; [|reflexivity].
  apply (untracked_pending_handle_blocks_classification Sim.clsid_text Sim.known 0x99
           [OleGetAutoConvert (Sim.proc Sim.memory) 0 0x4000 0;
            OleGetAutoConvert (Sim.proc Sim.memory) 0 0x5000 0]
           Sim.pending_untracked).
  - reflexivity.
  - lia.
  - vm_compute. reflexivity.
  - repeat constructor; do 4 eexists; reflexivity.
Defined.
